(** * IT diagnostics toolkit: a shallow embedding of [toolkit.py]

    The extractors ([analyze_user_log], [analyze_system_logs],
    [check_resource_usage], [parse_event_logs]), the snapshot collector
    ([simulate_system_snapshot]) and the report assembler
    ([generate_support_report]) are embedded as Rocq functions over an
    explicit [World]: the files of the host, the clock behind
    [datetime.now()], and the outcomes of the calls into [psutil],
    [subprocess] and [xml.etree.ElementTree].

    Text is a list of characters with code points below 256 (the type
    [ascii]); the case mappings and the white space class are those of
    Python's [str] on that range. *)

From Stdlib Require Import String Ascii.
From Stdlib Require Import List Bool Arith Lia NArith QArith.
From Stdlib Require DecimalString.
Import ListNotations.

Local Open Scope nat_scope.
Local Open Scope list_scope.

(** ** Text *)

Definition str := list ascii.

Definition lit (x : string) : str := list_ascii_of_string x.
Arguments lit x%_string : simpl never.

Definition chr (n : nat) : ascii := ascii_of_nat n.
Definition ord (c : ascii) : nat := nat_of_ascii c.

(** The line terminator seen by a file opened in text mode. *)
Definition LF : ascii := chr 10.

Definition in_range (lo hi n : nat) : bool := (lo <=? n) && (n <=? hi).

(** [str.isspace] on one character. *)
Definition isspace (c : ascii) : bool :=
  let n := ord c in
  in_range 9 13 n || in_range 28 32 n || (n =? 133) || (n =? 160).

(** [str.lower] on one character: A-Z, and the Latin-1 capitals but the
    multiplication sign. *)
Definition lower_char (c : ascii) : ascii :=
  let n := ord c in
  if in_range 65 90 n then chr (n + 32)
  else if in_range 192 222 n && negb (n =? 215) then chr (n + 32)
  else c.

Definition lower (s : str) : str := map lower_char s.

(** [str.upper] on one character.  The result is a sequence of code
    points: the sharp s becomes "SS", and the micro sign and the y with
    diaeresis leave the range below 256. *)
Definition upper_char (c : ascii) : list N :=
  let n := ord c in
  if in_range 97 122 n then [N.of_nat (n - 32)]
  else if n =? 223 then [83%N; 83%N]
  else if n =? 181 then [924%N]
  else if n =? 255 then [376%N]
  else if in_range 224 254 n && negb (n =? 247) then [N.of_nat (n - 32)]
  else [N.of_nat n].

Definition upper (s : str) : list N := flat_map upper_char s.

Definition code_points (s : str) : list N := map (fun c => N.of_nat (ord c)) s.

Definition ascii_eqb (a b : ascii) : bool := Ascii.eqb a b.

(** [l.startswith(p)], over any type with a boolean equality. *)
Fixpoint starts_with {A} (eqb : A -> A -> bool) (p l : list A) : bool :=
  match p, l with
  | [], _ => true
  | _ :: _, [] => false
  | a :: p', b :: l' => eqb a b && starts_with eqb p' l'
  end.

(** [l.find(p)]: the index of the first occurrence of [p] in [l]. *)
Fixpoint find_sub {A} (eqb : A -> A -> bool) (p l : list A) : option nat :=
  if starts_with eqb p l then Some 0
  else match l with
       | [] => None
       | _ :: l' => option_map S (find_sub eqb p l')
       end.

Definition is_some {A} (o : option A) : bool :=
  match o with Some _ => true | None => false end.

(** [p in l] for strings. *)
Definition contains {A} (eqb : A -> A -> bool) (p l : list A) : bool :=
  is_some (find_sub eqb p l).

Definition str_find : str -> str -> option nat := find_sub ascii_eqb.
Definition str_contains : str -> str -> bool := contains ascii_eqb.

Fixpoint lstrip (s : str) : str :=
  match s with
  | [] => []
  | c :: s' => if isspace c then lstrip s' else s
  end.

Definition rstrip (s : str) : str := rev (lstrip (rev s)).

(** [s.strip()] *)
Definition strip (s : str) : str := rstrip (lstrip s).

(** [s[:n]] *)
Definition slice_to (n : nat) (s : str) : str := firstn n s.

(** [s.split(sep)] for a non-empty separator: cut at the occurrences of
    [sep], found from left to right. *)
Fixpoint split_fuel (fuel : nat) (sep s : str) : list str :=
  match fuel with
  | 0 => [s]
  | S fuel' =>
      match str_find sep s with
      | None => [s]
      | Some i => firstn i s :: split_fuel fuel' sep (skipn (i + length sep) s)
      end
  end.

Definition split (sep s : str) : list str := split_fuel (length s) sep s.

(** The lines of a text file as the iteration [for line in file] yields
    them: each line keeps its terminator, the last one may have none. *)
Fixpoint readlines_from (cur : str) (s : str) : list str :=
  match s with
  | [] => match cur with [] => [] | _ => [rev cur] end
  | c :: s' =>
      if ascii_eqb c LF then rev (c :: cur) :: readlines_from [] s'
      else readlines_from (c :: cur) s'
  end.

Definition readlines (s : str) : list str := readlines_from [] s.

(** ** Regular expressions: an alternation of literals under [re.IGNORECASE] *)

(** A pattern character matches a text character when both have the same
    lower case. *)
Definition re_char_eqb (p c : ascii) : bool :=
  ascii_eqb (lower_char p) (lower_char c).

(** [re.search(alt1|alt2|..., s, re.IGNORECASE)]: the leftmost position
    at which an alternative matches, with the index of the first
    alternative that matches there. *)
Fixpoint first_alternative (alts : list str) (s : str) (k : nat) : option nat :=
  match alts with
  | [] => None
  | p :: alts' =>
      if starts_with re_char_eqb p s then Some k
      else first_alternative alts' s (S k)
  end.

Fixpoint re_search (alts : list str) (s : str) (pos : nat) : option (nat * nat) :=
  match first_alternative alts s 0 with
  | Some k => Some (pos, k)
  | None =>
      match s with
      | [] => None
      | _ :: s' => re_search alts s' (S pos)
      end
  end.

(** Decimal rendering of a length, as [str(len(x))] gives it. *)
Definition str_of_nat (n : nat) : str :=
  lit (DecimalString.NilZero.string_of_uint (Nat.to_uint n)).

Definition str_eqb (a b : str) : bool :=
  if list_eq_dec ascii_dec a b then true else false.

(** [sep.join(parts)] *)
Fixpoint join (sep : str) (parts : list str) : str :=
  match parts with
  | [] => []
  | [p] => p
  | p :: rest => p ++ sep ++ join sep rest
  end.

(** ** Values, records and exceptions *)

(** The values the records of the toolkit hold: [None], a [str], or a
    [float], which stands for the rational it denotes. *)
Inductive pyval :=
| PNone
| PStr (s : str)
| PFloat (q : Q).

(** A Python [dict] with string keys, in insertion order. *)
Definition dict := list (str * pyval).

Fixpoint dict_get (k : str) (d : dict) : option pyval :=
  match d with
  | [] => None
  | (k', v) :: d' => if str_eqb k k' then Some v else dict_get k d'
  end.

Definition dict_has (k : str) (d : dict) : bool :=
  match dict_get k d with Some _ => true | None => false end.

Inductive exn :=
| FileNotFoundError (detail : str)
| OSError (filename : str)
| ImportError
| ModuleNotFoundError (name : str)
| IndexError
| AttributeError
| KeyError (key : str)
| ParseError
| OtherError (name : str).

Inductive outcome (A : Type) :=
| Ret (a : A)
| Raise (e : exn).
Arguments Ret {A} a.
Arguments Raise {A} e.

(** [except ImportError] also catches its subclass. *)
Definition is_ImportError (e : exn) : bool :=
  match e with
  | ImportError | ModuleNotFoundError _ => true
  | _ => false
  end.

Definition is_FileNotFoundError (e : exn) : bool :=
  match e with
  | FileNotFoundError _ => true
  | _ => false
  end.

(** ** The element tree of [xml.etree.ElementTree] *)

Inductive Element :=
| Elem (tag : str) (text : option str) (children : list Element).

Definition tag (e : Element) : str := let 'Elem t _ _ := e in t.
Definition text (e : Element) : option str := let 'Elem _ x _ := e in x.
Definition children (e : Element) : list Element := let 'Elem _ _ cs := e in cs.

(** [e.iter()]: the element and all its descendants, in document order. *)
Fixpoint iter (e : Element) : list Element :=
  match e with
  | Elem _ _ cs => e :: flat_map iter cs
  end.

Definition has_tag (t : str) (e : Element) : bool := str_eqb (tag e) t.

(** [e.findall('.//t')]: the elements of [e.iter(t)] other than [e]
    itself. *)
Definition findall_descendants (t : str) (e : Element) : list Element :=
  filter (has_tag t) (flat_map iter (children e)).

(** The step [t] of a path: the children named [t] of each element. *)
Definition select_child (t : str) (result : list Element) : list Element :=
  flat_map (fun e => filter (has_tag t) (children e)) result.

(** [e.find('a/b')]: the first element the path selects, if any. *)
Definition find_path (a b : str) (e : Element) : option Element :=
  hd_error (select_child b (select_child a [e])).

(** ** The world the toolkit runs in *)

Record CompletedProcess := mkCompletedProcess {
  returncode : Z;
  stdout : str;
  stderr : str
}.

Record World := mkWorld {
  (** the text files of the host by path, read with universal newlines;
      the first entry of a path is the file *)
  files : list (str * str);
  (** the paths [open(path, 'w')] fails on *)
  write_fails : str -> bool;
  (** how many times [datetime.now()] was called, and what the call
      number [n] gives in ISO format *)
  now_calls : nat;
  isoformat_of_call : nat -> str;
  (** the records passed to [logging.info] *)
  log : list str;
  (** whether [import psutil] succeeds, and what its two samplers do *)
  psutil_installed : bool;
  cpu_percent : outcome Q;
  virtual_memory_percent : outcome Q;
  (** [subprocess.run(argv, capture_output=True, text=True)] *)
  subprocess_run : list str -> outcome CompletedProcess;
  (** [ET.parse] on the content of a file *)
  ET_parse : str -> outcome Element;
  (** [repr] of a float *)
  float_repr : Q -> str
}.

Definition set_files (f : list (str * str)) (w : World) : World :=
  mkWorld f (write_fails w) (now_calls w) (isoformat_of_call w) (log w)
    (psutil_installed w) (cpu_percent w) (virtual_memory_percent w)
    (subprocess_run w) (ET_parse w) (float_repr w).

Definition set_now_calls (n : nat) (w : World) : World :=
  mkWorld (files w) (write_fails w) n (isoformat_of_call w) (log w)
    (psutil_installed w) (cpu_percent w) (virtual_memory_percent w)
    (subprocess_run w) (ET_parse w) (float_repr w).

Definition set_log (l : list str) (w : World) : World :=
  mkWorld (files w) (write_fails w) (now_calls w) (isoformat_of_call w) l
    (psutil_installed w) (cpu_percent w) (virtual_memory_percent w)
    (subprocess_run w) (ET_parse w) (float_repr w).

(** ** Computations: state and exceptions *)

Definition M (A : Type) : Type := World -> outcome A * World.

Definition ret {A} (a : A) : M A := fun w => (Ret a, w).
Definition raise {A} (e : exn) : M A := fun w => (Raise e, w).

Definition bind {A B} (m : M A) (k : A -> M B) : M B :=
  fun w =>
    match m w with
    | (Ret a, w') => k a w'
    | (Raise e, w') => (Raise e, w')
    end.

Declare Scope toolkit_scope.
Delimit Scope toolkit_scope with toolkit.
Notation "x <- m ;; k" := (bind m (fun x => k))
  (at level 61, m at next level, right associativity) : toolkit_scope.
Notation "m ;; k" := (bind m (fun _ => k))
  (at level 61, right associativity) : toolkit_scope.
Local Open Scope toolkit_scope.

(** [try: body / except <caught>: handler] *)
Definition try_except {A} (body : M A) (caught : exn -> bool) (handler : M A) : M A :=
  fun w =>
    match body w with
    | (Raise e, w') => if caught e then handler w' else (Raise e, w')
    | r => r
    end.

Definition lift {A} (f : World -> outcome A) : M A := fun w => (f w, w).

Fixpoint for_each {A} (l : list A) (body : A -> M unit) : M unit :=
  match l with
  | [] => ret tt
  | x :: l' => body x ;; for_each l' body
  end.

Fixpoint lookup_file (path : str) (fs : list (str * str)) : option str :=
  match fs with
  | [] => None
  | (p, content) :: fs' => if str_eqb p path then Some content else lookup_file path fs'
  end.

Definition file_content (w : World) (path : str) : option str :=
  lookup_file path (files w).

(** The files after [s] is written at the end of the file at [path]. *)
Fixpoint append_file (path s : str) (fs : list (str * str)) : list (str * str) :=
  match fs with
  | [] => [(path, s)]
  | (p, content) :: fs' =>
      if str_eqb p path then (p, content ++ s) :: fs'
      else (p, content) :: append_file path s fs'
  end.

(** [os.path.exists(path)] *)
Definition os_path_exists (path : str) : M bool :=
  fun w => (Ret (match file_content w path with Some _ => true | None => false end), w).

(** [open(path, 'r')] followed by reading the whole text. *)
Definition open_read (path : str) : M str :=
  fun w =>
    match file_content w path with
    | Some content => (Ret content, w)
    | None => (Raise (FileNotFoundError path), w)
    end.

(** [open(path, 'w')]: the file is created or truncated. *)
Definition open_write (path : str) : M unit :=
  fun w =>
    if write_fails w path then (Raise (OSError path), w)
    else (Ret tt, set_files ((path, []) :: files w) w).

(** [file.write(s)] on the file opened at [path]. *)
Definition file_write (path : str) (s : str) : M unit :=
  fun w => (Ret tt, set_files (append_file path s (files w)) w).

(** [datetime.now().isoformat()] *)
Definition now_isoformat : M str :=
  fun w => (Ret (isoformat_of_call w (now_calls w)), set_now_calls (S (now_calls w)) w).

(** [logging.info(msg)] *)
Definition logging_info (msg : str) : M unit :=
  fun w => (Ret tt, set_log (log w ++ [msg]) w).

(** [d[k]] *)
Definition dict_item (d : dict) (k : str) : M pyval :=
  match dict_get k d with
  | Some v => ret v
  | None => raise (KeyError k)
  end.

(** ** The extractors *)

(** The pattern [r'conflict|error|failed to load']. *)
Definition USER_LOG_PATTERN : list str :=
  [lit "conflict"; lit "error"; lit "failed to load"].

Definition user_issue (timestamp line : str) : dict :=
  [ (lit "timestamp", PStr timestamp);
    (lit "description", PStr (strip line));
    (lit "issue_type", PStr (lit "Software Conflict")) ].

Fixpoint user_log_loop (lines : list str) (issues : list dict) : M (list dict) :=
  match lines with
  | [] => ret issues
  | line :: rest =>
      match re_search USER_LOG_PATTERN line 0 with
      | Some _ =>
          timestamp <- now_isoformat ;;
          user_log_loop rest (issues ++ [user_issue timestamp line])
      | None => user_log_loop rest issues
      end
  end.

Definition analyze_user_log (log_path : str) : M (list dict) :=
  found <- os_path_exists log_path ;;
  if negb found then
    raise (FileNotFoundError (lit "Log file not found: " ++ log_path))
  else
    content <- open_read log_path ;;
    user_log_loop (readlines content) [].

Definition ERROR : str := lit "ERROR".

(** The test ['ERROR' in line.upper()]. *)
Definition error_in_upper (line : str) : bool :=
  contains N.eqb (code_points ERROR) (upper line).

(** The record of one matching line; [line.split('ERROR')[1]] raises
    [IndexError] when the split has a single piece. *)
Definition system_error (line : str) : outcome dict :=
  match nth_error (split ERROR line) 1 with
  | None => Raise IndexError
  | Some piece =>
      Ret [ (lit "error_code", PStr (slice_to 10 (strip piece)));
            (lit "description", PStr (strip line)) ]
  end.

Fixpoint system_log_loop (lines : list str) (errors : list dict) : outcome (list dict) :=
  match lines with
  | [] => Ret errors
  | line :: rest =>
      if error_in_upper line then
        match system_error line with
        | Ret r => system_log_loop rest (errors ++ [r])
        | Raise e => Raise e
        end
      else system_log_loop rest errors
  end.

Definition analyze_system_logs (log_path : str) : M (list dict) :=
  content <- open_read log_path ;;
  lift (fun _ => system_log_loop (readlines content) []).

(** [x > 80] for a float [x]. *)
Definition above_80 (x : Q) : bool := negb (Qle_bool x (80 # 1)).

Definition resource_flag (issue : str) (value : Q) : dict :=
  [ (lit "issue", PStr issue); (lit "value", PFloat value) ].

Definition top_record (output : str) : dict :=
  [ (lit "issue", PStr (lit "Resource check via top"));
    (lit "output", PStr (slice_to 200 output)) ].

Definition sample_and_flag : M (list dict) :=
  cpu_usage <- lift cpu_percent ;;
  memory_usage <- lift virtual_memory_percent ;;
  let flags := [] in
  let flags :=
    if above_80 cpu_usage
    then flags ++ [resource_flag (lit "High CPU usage") cpu_usage] else flags in
  let flags :=
    if above_80 memory_usage
    then flags ++ [resource_flag (lit "High Memory usage") memory_usage] else flags in
  ret flags.

Definition top_fallback : M (list dict) :=
  result <- lift (fun w => subprocess_run w [lit "top"; lit "-bn1"]) ;;
  logging_info (lit "Fallback to top command output.") ;;
  ret [top_record (stdout result)].

Definition check_resource_usage : M (list dict) :=
  try_except sample_and_flag is_ImportError top_fallback.

Definition crash_anomaly (event_id : option str) (description : str) : dict :=
  [ (lit "event_id", match event_id with Some s => PStr s | None => PNone end);
    (lit "description", PStr description);
    (lit "issue_type", PStr (lit "Application Crash")) ].

(** The body of the loop over the events found.  [desc.text.lower()]
    and [event.find(...).text] raise [AttributeError] on [None]. *)
Fixpoint event_loop (events : list Element) (anomalies : list dict) : outcome (list dict) :=
  match events with
  | [] => Ret anomalies
  | event :: rest =>
      match find_path (lit "EventData") (lit "Data") event with
      | None => event_loop rest anomalies
      | Some desc =>
          match text desc with
          | None => Raise AttributeError
          | Some desc_text =>
              if str_contains (lit "crash") (lower desc_text) then
                match find_path (lit "System") (lit "EventID") event with
                | None => Raise AttributeError
                | Some event_id =>
                    event_loop rest (anomalies ++ [crash_anomaly (text event_id) desc_text])
                end
              else event_loop rest anomalies
          end
      end
  end.

(** The scan of a parsed document, from its root. *)
Definition scan_events (root : Element) : outcome (list dict) :=
  event_loop (findall_descendants (lit "Event") root) [].

Definition parse_event_logs (xml_path : str) : M (list dict) :=
  found <- os_path_exists xml_path ;;
  if negb found then
    raise (FileNotFoundError (lit "Event log file not found: " ++ xml_path))
  else
    content <- open_read xml_path ;;
    root <- lift (fun w => ET_parse w content) ;;
    lift (fun _ => scan_events root).

(** The snapshot is a [dict] whose values are text. *)
Definition snapshot := list (str * str).

Fixpoint snapshot_get (k : str) (d : snapshot) (default : str) : str :=
  match d with
  | [] => default
  | (k', v) :: d' => if str_eqb k k' then v else snapshot_get k d' default
  end.

Definition simulate_system_snapshot : M snapshot :=
  try_except
    (ps <- lift (fun w => subprocess_run w [lit "ps"; lit "aux"]) ;;
     let processes := stdout ps in
     netstat <- lift (fun w => subprocess_run w [lit "netstat"; lit "-an"]) ;;
     let connections := stdout netstat in
     ret [ (lit "processes", slice_to 500 processes);
           (lit "connections", slice_to 500 connections) ])
    is_FileNotFoundError
    (ret [ (lit "error", lit "Commands not available on this system.") ]).

(** ** The report assembler *)

(** The tree [json.dump] serialises. *)
Inductive json :=
| JNull
| JStr (s : str)
| JFloat (q : Q)
| JList (items : list json)
| JDict (members : list (str * json)).

Definition QUOTE : ascii := chr 34.
Definition BACKSLASH : ascii := chr 92.

Definition hex_digit (n : nat) : ascii :=
  nth n (lit "0123456789abcdef") "0"%char.

(** The escapes of [json] with [ensure_ascii]: the quote, the backslash
    and every character outside the printable ASCII range. *)
Definition json_escape_char (c : ascii) : str :=
  let n := ord c in
  if n =? 34 then [BACKSLASH; QUOTE]
  else if n =? 92 then [BACKSLASH; BACKSLASH]
  else if n =? 10 then BACKSLASH :: lit "n"
  else if n =? 13 then BACKSLASH :: lit "r"
  else if n =? 9 then BACKSLASH :: lit "t"
  else if n =? 8 then BACKSLASH :: lit "b"
  else if n =? 12 then BACKSLASH :: lit "f"
  else if in_range 32 126 n then [c]
  else BACKSLASH :: lit "u00" ++ [hex_digit (n / 16); hex_digit (n mod 16)].

Definition json_string (s : str) : str :=
  QUOTE :: flat_map json_escape_char s ++ [QUOTE].

(** A line break followed by the indentation of a nesting level, for
    [indent=4]. *)
Definition newline_indent (level : nat) : str := LF :: repeat " "%char (4 * level).

Fixpoint json_encode (repr : Q -> str) (level : nat) (j : json) : str :=
  match j with
  | JNull => lit "null"
  | JStr s => json_string s
  | JFloat q => repr q
  | JList [] => lit "[]"
  | JList items =>
      lit "[" ++ newline_indent (S level)
      ++ join (lit "," ++ newline_indent (S level))
              (map (json_encode repr (S level)) items)
      ++ newline_indent level ++ lit "]"
  | JDict [] => lit "{}"
  | JDict members =>
      lit "{" ++ newline_indent (S level)
      ++ join (lit "," ++ newline_indent (S level))
              (map (fun kv => let '(k, v) := kv in
                              json_string k ++ lit ": " ++ json_encode repr (S level) v)
                   members)
      ++ newline_indent level ++ lit "}"
  end.

Definition json_of_pyval (v : pyval) : json :=
  match v with
  | PNone => JNull
  | PStr s => JStr s
  | PFloat q => JFloat q
  end.

Definition json_of_dict (d : dict) : json :=
  JDict (map (fun kv => (fst kv, json_of_pyval (snd kv))) d).

Definition json_of_snapshot (d : snapshot) : json :=
  JDict (map (fun kv => (fst kv, JStr (snd kv))) d).

Definition RECOMMENDATIONS : list str :=
  [ lit "Update conflicting software";
    lit "Run compatibility checks";
    lit "Investigate high resource usage" ].

Definition summary (issues errors flags anomalies : list dict) : str :=
  lit "Found " ++ str_of_nat (List.length issues) ++ lit " user issues, "
  ++ str_of_nat (List.length errors) ++ lit " system errors, "
  ++ str_of_nat (List.length flags) ++ lit " resource flags, "
  ++ str_of_nat (List.length anomalies) ++ lit " anomalies.".

Definition report (issues errors flags anomalies : list dict) (snap : snapshot)
    (timestamp : str) : json :=
  JDict
    [ (lit "summary", JStr (summary issues errors flags anomalies));
      (lit "user_issues", JList (map json_of_dict issues));
      (lit "system_errors", JList (map json_of_dict errors));
      (lit "resource_flags", JList (map json_of_dict flags));
      (lit "anomalies", JList (map json_of_dict anomalies));
      (lit "system_snapshot", json_of_snapshot snap);
      (lit "timestamp", JStr timestamp);
      (lit "recommendations", JList (map JStr RECOMMENDATIONS)) ].

(** [str(v)], as an f-string interpolates a value. *)
Definition py_str (repr : Q -> str) (v : pyval) : str :=
  match v with
  | PNone => lit "None"
  | PStr s => s
  | PFloat q => repr q
  end.

(** One bullet [- **label:** {d[k1]} - prefix{d[k2]}]. *)
Definition bullet (path label k1 sep k2 : str) (d : dict) : M unit :=
  v1 <- dict_item d k1 ;;
  v2 <- dict_item d k2 ;;
  repr <- lift (fun w => Ret (float_repr w)) ;;
  file_write path
    (lit "- **" ++ label ++ lit ":** " ++ py_str repr v1 ++ sep ++ py_str repr v2 ++ [LF]).

(** The bullet of a resource flag: [flag.get('value', 'N/A')] has a
    default. *)
Definition flag_bullet (path : str) (d : dict) : M unit :=
  v1 <- dict_item d (lit "issue") ;;
  let v2 := match dict_get (lit "value") d with Some v => v | None => PStr (lit "N/A") end in
  repr <- lift (fun w => Ret (float_repr w)) ;;
  file_write path
    (lit "- **Issue:** " ++ py_str repr v1 ++ lit " - Value: " ++ py_str repr v2 ++ [LF]).

Definition FENCE : str := lit "```".

Definition write_json_report (issues errors flags anomalies : list dict)
    (snap : snapshot) (json_output : str) : M unit :=
  timestamp <- now_isoformat ;;
  let r := report issues errors flags anomalies snap timestamp in
  open_write json_output ;;
  repr <- lift (fun w => Ret (float_repr w)) ;;
  file_write json_output (json_encode repr 0 r) ;;
  logging_info (lit "JSON report generated at " ++ json_output).

(** The sections of the narrative report, written after its timestamp
    line. *)
Definition write_md_sections (issues errors flags anomalies : list dict)
    (snap : snapshot) (md_output : str) : M unit :=
  file_write md_output (lit "## User Issues" ++ [LF]) ;;
  for_each issues
    (bullet md_output (lit "Type") (lit "issue_type") (lit " - ") (lit "description")) ;;
  file_write md_output (LF :: lit "## System Errors" ++ [LF]) ;;
  for_each errors
    (bullet md_output (lit "Code") (lit "error_code") (lit " - ") (lit "description")) ;;
  file_write md_output (LF :: lit "## Resource Flags" ++ [LF]) ;;
  for_each flags (flag_bullet md_output) ;;
  file_write md_output (LF :: lit "## Detected Anomalies" ++ [LF]) ;;
  for_each anomalies
    (bullet md_output (lit "Event ID") (lit "event_id") (lit " - ") (lit "description")) ;;
  file_write md_output (LF :: lit "## System Snapshot" ++ [LF]) ;;
  file_write md_output
    (lit "### Processes" ++ [LF] ++ FENCE ++ [LF]
     ++ snapshot_get (lit "processes") snap [] ++ [LF] ++ FENCE ++ [LF]) ;;
  file_write md_output
    (lit "### Connections" ++ [LF] ++ FENCE ++ [LF]
     ++ snapshot_get (lit "connections") snap [] ++ [LF] ++ FENCE ++ [LF]).

Definition write_md_report (issues errors flags anomalies : list dict)
    (snap : snapshot) (md_output : str) : M unit :=
  open_write md_output ;;
  file_write md_output (lit "# Remote IT Support Report" ++ [LF; LF]) ;;
  timestamp <- now_isoformat ;;
  file_write md_output (lit "## Timestamp: " ++ timestamp ++ [LF; LF]) ;;
  write_md_sections issues errors flags anomalies snap md_output ;;
  logging_info (lit "Markdown report generated at " ++ md_output).

Definition generate_support_report (issues errors flags anomalies : list dict)
    (snap : snapshot) (json_output md_output : str) : M unit :=
  write_json_report issues errors flags anomalies snap json_output ;;
  write_md_report issues errors flags anomalies snap md_output.

(** The module body: the imports, of which [import psutil] may fail, and
    the example run under [__main__]. *)
Definition import_toolkit : M unit :=
  fun w =>
    if psutil_installed w then (Ret tt, w)
    else (Raise (ModuleNotFoundError (lit "psutil")), w).

Definition main : M unit :=
  import_toolkit ;;
  user_issues <- analyze_user_log (lit "user_log.txt") ;;
  system_errors <- analyze_system_logs (lit "system_log.txt") ;;
  resource_flags <- check_resource_usage ;;
  event_anomalies <- parse_event_logs (lit "event_log.xml") ;;
  system_snapshot <- simulate_system_snapshot ;;
  generate_support_report user_issues system_errors resource_flags event_anomalies
    system_snapshot (lit "support_report.json") (lit "support_report.md").

(** ** The vocabulary of the specification *)

(** "Contains the substring, case-insensitively". *)
Definition contains_ignoring_case (sub line : str) : bool :=
  str_contains (lower sub) (lower line).

(** The three trigger substrings of mode A. *)
Definition TRIGGERS : list str :=
  [lit "conflict"; lit "error"; lit "failed to load"].

Definition has_trigger (line : str) : bool :=
  existsb (fun t => contains_ignoring_case t line) TRIGGERS.

(** The records of mode A for the matching lines, in file order; the
    record of the k-th matching line carries the k-th reading of the
    clock. *)
Fixpoint stamped (clock : nat -> str) (n : nat) (lines : list str) : list dict :=
  match lines with
  | [] => []
  | line :: rest => user_issue (clock n) line :: stamped clock (S n) rest
  end.

(** The categories of the Issue Record, and the category a record of an
    extractor stands for, read off the keys it carries. *)
Inductive Category := UserConflict | SystemError | ResourceFlag | EventAnomaly.

Definition issue_type_is (name : str) (d : dict) : bool :=
  match dict_get (lit "issue_type") d with
  | Some (PStr s) => str_eqb s name
  | _ => false
  end.

Definition has_shape (c : Category) (d : dict) : bool :=
  match c with
  | UserConflict => issue_type_is (lit "Software Conflict") d
  | SystemError => dict_has (lit "error_code") d
  | ResourceFlag => dict_has (lit "issue") d
  | EventAnomaly => issue_type_is (lit "Application Crash") d
  end.

Definition categories (d : dict) : list Category :=
  filter (fun c => has_shape c d) [UserConflict; SystemError; ResourceFlag; EventAnomaly].

(** The key that holds the [description] of the Issue Record: a resource
    flag keeps it under [issue]. *)
Definition description_key (c : Category) : str :=
  match c with
  | ResourceFlag => lit "issue"
  | _ => lit "description"
  end.

Definition well_formed_issue (d : dict) : Prop :=
  exists c s,
    categories d = [c] /\ dict_get (description_key c) d = Some (PStr s) /\ s <> [].

(** The text after the first occurrence of [sep], and the text before
    it (all of the text when [sep] does not occur). *)
Definition text_after (sep s : str) : str :=
  match str_find sep s with
  | Some i => skipn (i + List.length sep) s
  | None => []
  end.

Definition text_before (sep s : str) : str :=
  match str_find sep s with
  | Some i => firstn i s
  | None => s
  end.


(** The code of mode B as the code cuts it: the text between the first
    "ERROR" and the next one, trimmed at both ends, up to 10 characters. *)
Definition code_between_ERRORs (line : str) : str :=
  slice_to 10 (strip (text_before ERROR (text_after ERROR line))).

Definition mode_B_record (line : str) : dict :=
  [ (lit "error_code", PStr (code_between_ERRORs line));
    (lit "description", PStr (strip line)) ].

(** An event qualifies when its data field is present and mentions
    "crash" in any case. *)
Definition data_text (event : Element) : option str :=
  match find_path (lit "EventData") (lit "Data") event with
  | Some desc => text desc
  | None => None
  end.

Definition qualifies (event : Element) : bool :=
  match data_text event with
  | Some t => contains_ignoring_case (lit "crash") t
  | None => false
  end.

Definition event_id_text (event : Element) : option str :=
  match find_path (lit "System") (lit "EventID") event with
  | Some e => text e
  | None => None
  end.

Definition anomaly_of (event : Element) : dict :=
  crash_anomaly (event_id_text event)
    (match data_text event with Some t => t | None => [] end).


(** [d] lies below [e], at any depth. *)
Inductive below : Element -> Element -> Prop :=
| below_child : forall d e, In d (children e) -> below d e
| below_deeper : forall d c e, In c (children e) -> below d c -> below d e.

(** A pattern letter [a] compares alike with a character [c] through
    [upper] and through [lower]: the upper case of [c] is the code point
    of [a] exactly when their lower cases agree, and no character that
    [upper] expands to two code points is involved. *)
Definition upper_agrees (a c : ascii) : bool :=
  let code := N.of_nat (ord a) in
  match upper_char c with
  | [x] => Bool.eqb (N.eqb code x) (ascii_eqb (lower_char a) (lower_char c))
  | [x; y] =>
      negb (N.eqb code x) && negb (N.eqb code y)
      && negb (ascii_eqb (lower_char a) (lower_char c))
  | _ => false
  end.

Definition plain_letter (a : ascii) : Prop := forall c, upper_agrees a c = true.

(** A computation appends to the open file at [path], and nothing else
    of it is observed: the text it appends and its outcome depend on the
    rendering of floats only, not on the clock or on the files. *)
Definition appends {A} (path : str) (m : M A) : Prop :=
  forall repr,
  exists (appended : str) (o : outcome A),
  forall (w : World) (c : str) (rest : list (str * str)),
    float_repr w = repr ->
    files w = (path, c) :: rest ->
    fst (m w) = o
    /\ files (snd (m w)) = (path, c ++ appended) :: rest
    /\ float_repr (snd (m w)) = repr.

(** The text of the fields and members that come before and after one
    member in the rendering of a list or of an object. *)
Definition join_before (sep : str) (parts : list str) : str :=
  flat_map (fun p => p ++ sep) parts.

Definition join_after (sep : str) (parts : list str) : str :=
  flat_map (fun p => sep ++ p) parts.

(** ** Sample inputs *)

(** A host with the three input files of the example run, a clock, and
    the samplers and commands all at hand. *)
Definition sample_user_log : str :=
  lit "normal line" ++ [LF] ++ lit "Error: driver failed to load" ++ [LF]
  ++ lit "ok" ++ [LF].

Definition sample_system_log : str :=
  lit "boot ok" ++ [LF] ++ lit "kernel ERROR  E1234 disk timeout" ++ [LF].

Definition sample_event :=
  Elem (lit "Event") None
    [ Elem (lit "System") None [Elem (lit "EventID") (Some (lit "42")) []];
      Elem (lit "EventData") None
        [Elem (lit "Data") (Some (lit "App crash detected")) []] ].

Definition sample_document : Element := Elem (lit "Events") None [sample_event].

Definition sample_world : World :=
  mkWorld
    [ (lit "user_log.txt", sample_user_log);
      (lit "system_log.txt", sample_system_log);
      (lit "event_log.xml", lit "<Events>...</Events>") ]
    (fun _ => false)
    0 (fun n => lit "2024-05-01T10:00:0" ++ str_of_nat n)
    []
    true (Ret (85 # 1)) (Ret (50 # 1))
    (fun argv => Ret (mkCompletedProcess 0 (lit "output of " ++ join (lit " ") argv) []))
    (fun _ => Ret sample_document)
    (fun q => str_of_nat (Z.to_nat (Qnum q / Z.pos (Qden q))) ++ lit ".0").



(** An event whose data field is empty, and a document holding it. *)
Definition event_with_empty_data : Element :=
  Elem (lit "Event") None
    [ Elem (lit "System") None [Elem (lit "EventID") (Some (lit "7")) []];
      Elem (lit "EventData") None [Elem (lit "Data") None []] ].


(** The sample event two levels below the root. *)
Definition nested_document : Element :=
  Elem (lit "Log") None
    [ Elem (lit "Channel") None [Elem (lit "Batch") None [sample_event]] ].

(** What the scan needs of an event not to fail on it: a data field that
    is present has text, and a crash-flagged event has its identifier
    field. *)
Definition scannable (event : Element) : Prop :=
  (forall desc, find_path (lit "EventData") (lit "Data") event = Some desc ->
                text desc <> None)
  /\ (qualifies event = true ->
      find_path (lit "System") (lit "EventID") event <> None).

Definition set_samples (cpu mem : outcome Q) (w : World) : World :=
  mkWorld (files w) (write_fails w) (now_calls w) (isoformat_of_call w) (log w)
    (psutil_installed w) cpu mem (subprocess_run w) (ET_parse w) (float_repr w).

Definition set_subprocess_run (run : list str -> outcome CompletedProcess)
    (w : World) : World :=
  mkWorld (files w) (write_fails w) (now_calls w) (isoformat_of_call w) (log w)
    (psutil_installed w) (cpu_percent w) (virtual_memory_percent w)
    run (ET_parse w) (float_repr w).

Definition set_psutil_installed (b : bool) (w : World) : World :=
  mkWorld (files w) (write_fails w) (now_calls w) (isoformat_of_call w) (log w)
    b (cpu_percent w) (virtual_memory_percent w)
    (subprocess_run w) (ET_parse w) (float_repr w).

Definition set_write_fails (f : str -> bool) (w : World) : World :=
  mkWorld (files w) f (now_calls w) (isoformat_of_call w) (log w)
    (psutil_installed w) (cpu_percent w) (virtual_memory_percent w)
    (subprocess_run w) (ET_parse w) (float_repr w).

(** A host on which sampling is unavailable and no command is found:
    running [argv] raises [FileNotFoundError] for its program. *)
Definition host_without_top : World :=
  set_subprocess_run (fun argv => Raise (FileNotFoundError (hd [] argv)))
    (set_samples (Raise ImportError) (Raise ImportError) sample_world).

(** A host on which sampling is unavailable and [top] runs, printing on
    both of its streams. *)
Definition host_without_sampling : World :=
  set_subprocess_run
    (fun _ => Ret (mkCompletedProcess 0 (lit "top - 10:00:00 up 1 day") (lit "warning")))
    (set_samples (Raise ImportError) (Raise ImportError) sample_world).

(** A host on which the sampler fails with an error of its own. *)
Definition host_with_failing_sampler : World :=
  set_samples (Raise (OtherError (lit "AccessDenied"))) (Ret (50 # 1)) sample_world.

(** A host on which [psutil] is not installed. *)
Definition host_without_psutil : World := set_psutil_installed false sample_world.

(** A host whose commands print 600 characters. *)
Definition host_with_long_output : World :=
  set_subprocess_run
    (fun _ => Ret (mkCompletedProcess 0 (repeat "x"%char 600) (lit "warning")))
    sample_world.


(** A line that mentions the error in lower case only. *)
Definition lowercase_error_line : str := lit "disk error on sda" ++ [LF].

(** A host on which the structured report cannot be written. *)
Definition host_with_locked_json : World :=
  set_write_fails (fun p => str_eqb p (lit "support_report.json")) sample_world.

(** A host on which the narrative report cannot be written. *)
Definition host_with_locked_md : World :=
  set_write_fails (fun p => str_eqb p (lit "support_report.md")) sample_world.

(** The inputs of the assembler on the sample host. *)
Definition sample_issues : list dict :=
  [user_issue (lit "2024-05-01T09:59:59") (lit "Error: driver failed to load")].

(** The records of mode A on the sample host. *)
Definition sample_issues_now : list dict :=
  [user_issue (lit "2024-05-01T10:00:00") (lit "Error: driver failed to load")].

Definition sample_snapshot : snapshot :=
  [(lit "processes", lit "init"); (lit "connections", lit "tcp 0.0.0.0:22")].

(** ** Further vocabulary *)

(** A text without white space at either end. *)
Definition trimmed (s : str) : Prop :=
  (forall c, hd_error s = Some c -> isspace c = false)
  /\ (forall c, hd_error (rev s) = Some c -> isspace c = false).

(** A line on which the extraction of mode B goes through: it does not
    pass the test, or it holds a literal "ERROR". *)
Definition mode_B_can_cut (line : str) : bool :=
  implb (error_in_upper line) (str_contains ERROR line).

(** An event on which the scan goes through, as a test. *)
Definition can_scan (event : Element) : bool :=
  match find_path (lit "EventData") (lit "Data") event with
  | None => true
  | Some desc =>
      match text desc with
      | None => false
      | Some t =>
          if contains_ignoring_case (lit "crash") t
          then is_some (find_path (lit "System") (lit "EventID") event)
          else true
      end
  end.

(** A host on which no input file exists. *)
Definition host_without_files : World := set_files [] sample_world.

(** A host with [ps] but without [netstat]. *)
Definition host_without_netstat : World :=
  set_subprocess_run
    (fun argv =>
       if str_eqb (hd [] argv) (lit "netstat")
       then Raise (FileNotFoundError (lit "netstat"))
       else Ret (mkCompletedProcess 0 (lit "PID TTY") []))
    sample_world.

(** The world in which the sections of the narrative report are
    written: the file is open, its title and timestamp line are in it,
    and the clock has been read once more. *)
Definition md_started (md_output : str) (w : World) : World :=
  set_files
    ((md_output,
      (lit "# Remote IT Support Report" ++ [LF; LF])
      ++ (lit "## Timestamp: " ++ isoformat_of_call w (now_calls w) ++ [LF; LF]))
     :: files w)
    (set_now_calls (S (now_calls w)) w).

(** The world after the structured report is written. *)
Definition json_written (issues errors flags anomalies : list dict)
    (snap : snapshot) (json_output : str) (w : World) : World :=
  set_log (log w ++ [lit "JSON report generated at " ++ json_output])
    (set_files
       ((json_output,
         json_encode (float_repr w) 0
           (report issues errors flags anomalies snap
              (isoformat_of_call w (now_calls w))))
        :: files w)
       (set_now_calls (S (now_calls w)) w)).

(** A record that lacks one of the two keys a bullet reads. *)
Definition lacks_key (k1 k2 : str) (d : dict) : bool :=
  negb (dict_has k1 d) || negb (dict_has k2 d).

(** The characters of a plain ASCII text file: the printable ones and
    the line break. *)
Definition plain_ascii (c : ascii) : bool :=
  in_range 32 126 (ord c) || (ord c =? 10).

(** The records the extractors return on the sample host. *)
Definition sample_errors : list dict :=
  [mode_B_record (lit "kernel ERROR  E1234 disk timeout" ++ [LF])].

Definition sample_flags : list dict :=
  [resource_flag (lit "High CPU usage") (85 # 1)].

Definition sample_anomalies : list dict :=
  [crash_anomaly (Some (lit "42")) (lit "App crash detected")].

(** A host whose floats all print alike. *)
Definition host_with_fixed_repr : World :=
  mkWorld (files sample_world) (write_fails sample_world) (now_calls sample_world)
    (isoformat_of_call sample_world) (log sample_world)
    (psutil_installed sample_world) (cpu_percent sample_world)
    (virtual_memory_percent sample_world) (subprocess_run sample_world)
    (ET_parse sample_world) (fun _ => lit "85.0").

(** * Properties *)

(** ** Text *)

Lemma str_eqb_refl (a : str) : str_eqb a a = true.
Proof. unfold str_eqb. destruct (list_eq_dec ascii_dec a a); congruence. Qed.

Lemma str_eqb_eq (a b : str) : str_eqb a b = true <-> a = b.
Proof. unfold str_eqb. destruct (list_eq_dec ascii_dec a b); split; congruence. Qed.

Lemma str_eqb_neq (a b : str) : a <> b -> str_eqb a b = false.
Proof. unfold str_eqb. destruct (list_eq_dec ascii_dec a b); congruence. Qed.

Section Substrings.
Context {A : Type} (eqb : A -> A -> bool).

Lemma contains_nil (p : list A) :
  contains eqb p [] = starts_with eqb p [].
Proof. unfold contains. simpl. destruct (starts_with eqb p []); reflexivity. Qed.

Lemma contains_cons (p : list A) (c : A) (l : list A) :
  contains eqb p (c :: l) = starts_with eqb p (c :: l) || contains eqb p l.
Proof.
  unfold contains. simpl find_sub.
  destruct (starts_with eqb p (c :: l)); [reflexivity|].
  destruct (find_sub eqb p l); reflexivity.
Qed.

Hypothesis eqb_eq : forall a b, eqb a b = true <-> a = b.

Lemma starts_with_app (p l : list A) : starts_with eqb p (p ++ l) = true.
Proof.
  induction p as [|a p IH]; simpl; [reflexivity|].
  rewrite IH, andb_true_r. now apply eqb_eq.
Qed.

Lemma starts_with_prefix (p l : list A) :
  starts_with eqb p l = true -> l = p ++ skipn (List.length p) l.
Proof.
  revert l. induction p as [|a p IH]; intros [|b l]; simpl; try congruence.
  intros H. apply andb_true_iff in H as [Hab Hp].
  apply eqb_eq in Hab. subst b. f_equal. now apply IH.
Qed.

(** [find_sub] gives the first position at which [p] starts. *)
Lemma find_sub_some (p l : list A) (i : nat) :
  find_sub eqb p l = Some i ->
  l = firstn i l ++ p ++ skipn (i + List.length p) l.
Proof.
  revert i. induction l as [|c l IH]; intros i; simpl find_sub.
  - destruct (starts_with eqb p []) eqn:E; [|discriminate].
    intros [= <-]. destruct p; [reflexivity|discriminate].
  - destruct (starts_with eqb p (c :: l)) eqn:E.
    + intros [= <-]. simpl firstn. simpl app at 1. now apply starts_with_prefix.
    + destruct (find_sub eqb p l) as [j|] eqn:F; [|discriminate].
      simpl. intros [= <-]. simpl. f_equal. now apply IH.
Qed.

Lemma contains_app (p pre post : list A) :
  contains eqb p (pre ++ p ++ post) = true.
Proof.
  induction pre as [|c pre IH].
  - simpl app. destruct (p ++ post) eqn:E.
    + rewrite contains_nil. rewrite <- E. apply starts_with_app.
    + rewrite contains_cons. rewrite <- E. now rewrite starts_with_app.
  - simpl app. rewrite contains_cons, IH. apply orb_true_r.
Qed.

Lemma contains_find (p l : list A) :
  contains eqb p l = true -> exists i, find_sub eqb p l = Some i.
Proof.
  unfold contains. destruct (find_sub eqb p l) as [i|]; [eauto|discriminate].
Qed.

End Substrings.

Lemma ascii_eqb_eq (a b : ascii) : ascii_eqb a b = true <-> a = b.
Proof. apply Ascii.eqb_eq. Qed.

(** ** Mode A of the text log extractor *)

Lemma starts_with_ignoring_case (p s : str) :
  starts_with re_char_eqb p s = starts_with ascii_eqb (lower p) (lower s).
Proof.
  revert s. induction p as [|a p IH]; intros [|c s]; simpl; try reflexivity.
  now rewrite IH.
Qed.

Lemma first_alternative_some (alts : list str) (s : str) (k : nat) :
  is_some (first_alternative alts s k)
  = existsb (fun p => starts_with re_char_eqb p s) alts.
Proof.
  revert k. induction alts as [|p alts IH]; intros k; simpl; [reflexivity|].
  destruct (starts_with re_char_eqb p s); simpl; [reflexivity|apply IH].
Qed.

Lemma existsb_pointwise {A} (f g : A -> bool) (l : list A) :
  (forall x, f x = g x) -> existsb f l = existsb g l.
Proof.
  intros E. induction l as [|x l IH]; simpl; [reflexivity|]. now rewrite E, IH.
Qed.

Lemma existsb_orb {A} (f g : A -> bool) (l : list A) :
  existsb (fun x => f x || g x) l = existsb f l || existsb g l.
Proof.
  induction l as [|x l IH]; simpl; [reflexivity|].
  rewrite IH. destruct (f x), (g x), (existsb f l), (existsb g l); reflexivity.
Qed.

(** The search of the alternation finds a match exactly when the line
    contains one of the alternatives, ignoring case. *)
Lemma re_search_some (alts : list str) (s : str) (pos : nat) :
  is_some (re_search alts s pos)
  = existsb (fun p => contains_ignoring_case p s) alts.
Proof.
  revert pos. induction s as [|c s IH]; intros pos.
  - simpl re_search.
    assert (E : existsb (fun p => contains_ignoring_case p []) alts
                = existsb (fun p => starts_with re_char_eqb p []) alts).
    { apply existsb_pointwise. intros p.
      unfold contains_ignoring_case, str_contains. simpl lower.
      now rewrite contains_nil, starts_with_ignoring_case. }
    rewrite E, <- (first_alternative_some alts [] 0).
    destruct (first_alternative alts [] 0); reflexivity.
  - simpl re_search.
    assert (E : existsb (fun p => contains_ignoring_case p (c :: s)) alts
                = existsb (fun p => starts_with re_char_eqb p (c :: s)) alts
                  || existsb (fun p => contains_ignoring_case p s) alts).
    { rewrite <- existsb_orb. apply existsb_pointwise. intros p.
      unfold contains_ignoring_case, str_contains. simpl lower.
      now rewrite contains_cons, starts_with_ignoring_case. }
    rewrite E, <- (first_alternative_some alts (c :: s) 0).
    destruct (first_alternative alts (c :: s) 0); simpl; [reflexivity|apply IH].
Qed.

Lemma re_search_trigger (line : str) :
  is_some (re_search USER_LOG_PATTERN line 0) = has_trigger line.
Proof. apply re_search_some. Qed.

Lemma user_log_loop_spec (lines : list str) :
  forall (issues : list dict) (w : World),
    fst (user_log_loop lines issues w)
    = Ret (issues ++ stamped (isoformat_of_call w) (now_calls w) (filter has_trigger lines)).
Proof.
  induction lines as [|line rest IH]; intros issues w.
  - simpl. now rewrite app_nil_r.
  - simpl user_log_loop. simpl filter. rewrite <- re_search_trigger.
    destruct (re_search USER_LOG_PATTERN line 0).
    + unfold bind, now_isoformat. rewrite IH. simpl.
      now rewrite <- app_assoc.
    + apply IH.
Qed.

Lemma stamped_descriptions (clock : nat -> str) (lines : list str) :
  forall n,
    map (dict_get (lit "description")) (stamped clock n lines)
    = map (fun line => Some (PStr (strip line))) lines.
Proof.
  induction lines as [|line rest IH]; intros n; simpl; [reflexivity|].
  now rewrite IH.
Qed.

Lemma stamped_categories (clock : nat -> str) (lines : list str) :
  forall n, Forall (fun d => categories d = [UserConflict]) (stamped clock n lines).
Proof.
  induction lines as [|line rest IH]; intros n; simpl; constructor; auto.
Qed.

(** C1. For every text file, mode A returns one record for each line
    that contains "conflict", "error" or "failed to load" in any case,
    in file order and none for the other lines; the record is a user
    conflict whose description is the trimmed line, and a line with
    several triggers gives one record. *)
Theorem analyze_user_log_one_record_per_matching_line :
  forall (w : World) (log_path content : str),
    file_content w log_path = Some content ->
    exists issues,
      fst (analyze_user_log log_path w) = Ret issues
      /\ issues = stamped (isoformat_of_call w) (now_calls w)
                    (filter has_trigger (readlines content))
      /\ List.length issues = List.length (filter has_trigger (readlines content))
      /\ map (dict_get (lit "description")) issues
         = map (fun line => Some (PStr (strip line)))
               (filter has_trigger (readlines content))
      /\ Forall (fun d => categories d = [UserConflict]) issues.
Proof.
  intros w log_path content Hfile.
  eexists. split; [|split; [reflexivity|]].
  - unfold analyze_user_log, bind, os_path_exists, open_read.
    cbv beta. rewrite Hfile. cbv beta iota delta [negb]. rewrite Hfile.
    apply user_log_loop_spec.
  - split; [|split].
    + rewrite <- (length_map (dict_get (lit "description"))), stamped_descriptions.
      now rewrite length_map.
    + apply stamped_descriptions.
    + apply stamped_categories.
Qed.

(** The run of C1 on the sample host: the one matching line of the three
    gives the one record. *)
Lemma analyze_user_log_sample :
  file_content sample_world (lit "user_log.txt") = Some sample_user_log
  /\ exists issues,
      fst (analyze_user_log (lit "user_log.txt") sample_world) = Ret issues
      /\ issues = stamped (isoformat_of_call sample_world) (now_calls sample_world)
                    (filter has_trigger (readlines sample_user_log))
      /\ List.length issues = List.length (filter has_trigger (readlines sample_user_log))
      /\ map (dict_get (lit "description")) issues
         = map (fun line => Some (PStr (strip line)))
               (filter has_trigger (readlines sample_user_log))
      /\ Forall (fun d => categories d = [UserConflict]) issues.
Proof.
  split; [reflexivity|].
  apply (analyze_user_log_one_record_per_matching_line sample_world
           (lit "user_log.txt") sample_user_log).
  reflexivity.
Defined.

Example analyze_user_log_end_to_end :
  fst (analyze_user_log (lit "user_log.txt") sample_world)
  = Ret [user_issue (lit "2024-05-01T10:00:00") (lit "Error: driver failed to load")].
Proof. vm_compute. reflexivity. Qed.

(** ** Mode B of the text log extractor *)

Lemma N_eqb_eq (a b : N) : N.eqb a b = true <-> a = b.
Proof. apply N.eqb_eq. Qed.

Lemma upper_app (a b : str) : upper (a ++ b) = upper a ++ upper b.
Proof. apply flat_map_app. Qed.

(** A line with a literal "ERROR" passes the test on its upper case. *)
Lemma literal_ERROR_in_upper (line : str) :
  str_contains ERROR line = true -> error_in_upper line = true.
Proof.
  intros H. apply contains_find in H as [i Hi].
  apply (find_sub_some ascii_eqb ascii_eqb_eq) in Hi.
  unfold error_in_upper. rewrite Hi, !upper_app.
  change (upper ERROR) with (code_points ERROR).
  apply (contains_app N.eqb N_eqb_eq).
Qed.

Lemma starts_with_length {A} (eqb : A -> A -> bool) (p l : list A) :
  starts_with eqb p l = true -> List.length p <= List.length l.
Proof.
  revert l. induction p as [|a p IH]; intros [|b l]; simpl; try lia; try discriminate.
  intros H. apply andb_true_iff in H as [_ H]. apply IH in H. lia.
Qed.

Lemma find_sub_length {A} (eqb : A -> A -> bool) (p l : list A) :
  forall i, find_sub eqb p l = Some i -> i + List.length p <= List.length l.
Proof.
  induction l as [|c l IH]; intros i; simpl find_sub.
  - destruct (starts_with eqb p []) eqn:E; [|discriminate].
    intros [= <-]. now apply starts_with_length in E.
  - destruct (starts_with eqb p (c :: l)) eqn:E.
    + intros [= <-]. now apply starts_with_length in E.
    + destruct (find_sub eqb p l) as [j|]; [|discriminate].
      simpl. intros [= <-]. specialize (IH j eq_refl). simpl. lia.
Qed.

(** The second piece of the split is the text between the first two
    occurrences of the separator. *)
Lemma split_second (sep s : str) (i : nat) :
  sep <> [] ->
  str_find sep s = Some i ->
  nth_error (split sep s) 1 = Some (text_before sep (text_after sep s)).
Proof.
  intros Hsep Hi. unfold text_after. rewrite Hi.
  pose proof (find_sub_length ascii_eqb sep s i Hi) as Hlen.
  assert (0 < List.length sep) by (destruct sep; [congruence|simpl; lia]).
  unfold split. destruct (List.length s) as [|f] eqn:Hs; [lia|].
  simpl split_fuel. rewrite Hi. simpl nth_error.
  set (rest := skipn (i + List.length sep) s).
  assert (Hrest : List.length rest <= f).
  { unfold rest. rewrite length_skipn. lia. }
  unfold text_before. destruct f as [|f'].
  - destruct rest; [|simpl in Hrest; lia].
    simpl. unfold str_find. simpl.
    destruct sep; [congruence|reflexivity].
  - simpl split_fuel. destruct (str_find sep rest); reflexivity.
Qed.

Lemma split_single (sep s : str) :
  str_find sep s = None -> split sep s = [s].
Proof.
  intros H. unfold split. destruct (List.length s); simpl; [reflexivity|].
  now rewrite H.
Qed.

Lemma system_error_literal (line : str) :
  str_contains ERROR line = true -> system_error line = Ret (mode_B_record line).
Proof.
  intros H. apply contains_find in H as [i Hi].
  unfold system_error. rewrite (split_second ERROR line i); [reflexivity| |exact Hi].
  discriminate.
Qed.

(** Without a literal "ERROR" the index 1 is out of range. *)
Lemma system_error_no_literal (line : str) :
  str_contains ERROR line = false -> system_error line = Raise IndexError.
Proof.
  intros H. unfold system_error. rewrite split_single; [reflexivity|].
  unfold str_contains, contains in H. unfold str_find.
  destruct (find_sub ascii_eqb ERROR line); [discriminate|reflexivity].
Qed.



(** *** The test on the upper case is the case-insensitive test *)

Lemma upper_agrees_E (c : ascii) : upper_agrees "E" c = true.
Proof. destruct c as [[] [] [] [] [] [] [] []]; reflexivity. Qed.

Lemma upper_agrees_R (c : ascii) : upper_agrees "R" c = true.
Proof. destruct c as [[] [] [] [] [] [] [] []]; reflexivity. Qed.

Lemma upper_agrees_O (c : ascii) : upper_agrees "O" c = true.
Proof. destruct c as [[] [] [] [] [] [] [] []]; reflexivity. Qed.

Lemma ERROR_plain : Forall plain_letter ERROR.
Proof.
  repeat constructor; intros c;
    auto using upper_agrees_E, upper_agrees_R, upper_agrees_O.
Qed.

Lemma starts_with_upper_lower (p : str) :
  Forall plain_letter p ->
  forall l, starts_with N.eqb (code_points p) (upper l)
            = starts_with ascii_eqb (lower p) (lower l).
Proof.
  induction 1 as [|a p Ha _ IH]; intros l; [reflexivity|].
  destruct l as [|c l]; [reflexivity|].
  specialize (Ha c). unfold upper_agrees in Ha.
  change (upper (c :: l)) with (upper_char c ++ upper l).
  simpl code_points. simpl lower.
  destruct (upper_char c) as [|x [|y [|z u]]]; try discriminate.
  - simpl. apply Bool.eqb_prop in Ha. now rewrite Ha, IH.
  - simpl. apply andb_true_iff in Ha as [Ha Hc].
    apply andb_true_iff in Ha as [Hx _].
    apply negb_true_iff in Hx, Hc. now rewrite Hx, Hc.
Qed.

Lemma contains_upper_lower (a : ascii) (p : str) :
  Forall plain_letter (a :: p) ->
  forall l, contains N.eqb (code_points (a :: p)) (upper l)
            = contains ascii_eqb (lower (a :: p)) (lower l).
Proof.
  intros Hp. induction l as [|c l IH]; [reflexivity|].
  pose proof (starts_with_upper_lower (a :: p) Hp (c :: l)) as Hs.
  assert (Ha : upper_agrees a c = true) by (inversion Hp; auto).
  unfold upper_agrees in Ha.
  change (upper (c :: l)) with (upper_char c ++ upper l) in *.
  change (lower (c :: l)) with (lower_char c :: lower l) in *.
  rewrite (contains_cons ascii_eqb).
  destruct (upper_char c) as [|x [|y [|z u]]]; try discriminate.
  - simpl app in *. now rewrite contains_cons, Hs, IH.
  - apply andb_true_iff in Ha as [Ha Hc].
    apply andb_true_iff in Ha as [Hx Hy].
    apply negb_true_iff in Hx, Hy, Hc.
    simpl app. rewrite !contains_cons, IH.
    simpl. now rewrite Hx, Hy, Hc.
Qed.

Lemma error_in_upper_ignoring_case (line : str) :
  error_in_upper line = contains_ignoring_case ERROR line.
Proof. apply (contains_upper_lower "E" (lit "RROR")), ERROR_plain. Qed.



Example system_log_of_the_sample_host :
  fst (analyze_system_logs (lit "system_log.txt") sample_world)
  = Ret [ [ (lit "error_code", PStr (lit "E1234 disk"));
            (lit "description", PStr (lit "kernel ERROR  E1234 disk timeout")) ] ].
Proof. vm_compute. reflexivity. Qed.


(** ** The structured event extractor *)

Lemma iter_unfold (e : Element) : iter e = e :: flat_map iter (children e).
Proof. destruct e; reflexivity. Qed.

Lemma below_in_iter (d e : Element) :
  below d e -> In d (flat_map iter (children e)).
Proof.
  induction 1 as [d e Hin|d c e Hin _ IH]; apply in_flat_map.
  - exists d. split; [exact Hin|]. rewrite iter_unfold. now left.
  - exists c. split; [exact Hin|]. rewrite iter_unfold. now right.
Qed.

Lemma Element_children_ind (P : Element -> Prop) :
  (forall t x cs, Forall P cs -> P (Elem t x cs)) -> forall e, P e.
Proof.
  intros H. fix IH 1. intros [t x cs]. apply H.
  induction cs as [|c cs IHcs]; constructor; [apply IH|exact IHcs].
Qed.

Lemma in_iter_below (e : Element) :
  forall d, In d (iter e) -> d = e \/ below d e.
Proof.
  induction e as [t x cs IH] using Element_children_ind. intros d Hd.
  rewrite iter_unfold in Hd. destruct Hd as [<-|Hd]; [now left|right].
  apply in_flat_map in Hd as [c [Hc Hd]]. simpl in Hc.
  rewrite Forall_forall in IH. destruct (IH c Hc d Hd) as [->|Hb].
  - now apply below_child.
  - now apply below_deeper with c.
Qed.

(** The events found are the elements named [t] below the root, at any
    depth. *)
Lemma findall_descendants_below (t : str) (root e : Element) :
  In e (findall_descendants t root) <-> below e root /\ has_tag t e = true.
Proof.
  unfold findall_descendants. rewrite filter_In. split; intros [H Ht]; split; auto.
  - apply in_flat_map in H as [c [Hc H]].
    destruct (in_iter_below c e H) as [->|Hb].
    + now apply below_child.
    + now apply below_deeper with c.
  - now apply below_in_iter.
Qed.

Lemma crash_test (t : str) :
  str_contains (lit "crash") (lower t) = contains_ignoring_case (lit "crash") t.
Proof. reflexivity. Qed.

Lemma event_loop_cons (event : Element) (rest : list Element) (anomalies : list dict) :
  event_loop (event :: rest) anomalies
  = match find_path (lit "EventData") (lit "Data") event with
    | None => event_loop rest anomalies
    | Some desc =>
        match text desc with
        | None => Raise AttributeError
        | Some t =>
            if contains_ignoring_case (lit "crash") t then
              match find_path (lit "System") (lit "EventID") event with
              | None => Raise AttributeError
              | Some id => event_loop rest (anomalies ++ [crash_anomaly (text id) t])
              end
            else event_loop rest anomalies
        end
    end.
Proof. reflexivity. Qed.

Lemma qualifies_without_data (event : Element) :
  find_path (lit "EventData") (lit "Data") event = None -> qualifies event = false.
Proof. intros H. unfold qualifies, data_text. now rewrite H. Qed.

Lemma qualifies_with_data (event desc : Element) (t : str) :
  find_path (lit "EventData") (lit "Data") event = Some desc ->
  text desc = Some t ->
  qualifies event = contains_ignoring_case (lit "crash") t.
Proof. intros H Ht. unfold qualifies, data_text. now rewrite H, Ht. Qed.

Lemma anomaly_of_event (event desc id : Element) (t : str) :
  find_path (lit "EventData") (lit "Data") event = Some desc ->
  text desc = Some t ->
  find_path (lit "System") (lit "EventID") event = Some id ->
  anomaly_of event = crash_anomaly (text id) t.
Proof.
  intros H Ht Hid. unfold anomaly_of, data_text, event_id_text. now rewrite H, Ht, Hid.
Qed.

(** Whenever the loop returns, it has appended the records of the
    qualifying events, in order. *)
Lemma event_loop_ret (events : list Element) :
  forall anomalies recs,
    event_loop events anomalies = Ret recs ->
    recs = anomalies ++ map anomaly_of (filter qualifies events).
Proof.
  induction events as [|event rest IH]; intros anomalies recs.
  - simpl. intros [= <-]. now rewrite app_nil_r.
  - rewrite event_loop_cons. cbn [filter].
    destruct (find_path (lit "EventData") (lit "Data") event) as [desc|] eqn:Hd.
    2:{ rewrite (qualifies_without_data event Hd). apply IH. }
    destruct (text desc) as [t|] eqn:Ht; [|discriminate].
    rewrite (qualifies_with_data event desc t Hd Ht).
    destruct (contains_ignoring_case (lit "crash") t); [|apply IH].
    destruct (find_path (lit "System") (lit "EventID") event) as [id|] eqn:Hid;
      [|discriminate].
    intros H. apply IH in H. subst recs. cbn [map].
    rewrite (anomaly_of_event event desc id t Hd Ht Hid). now rewrite <- app_assoc.
Qed.

(** On events it can scan, the loop returns. *)
Lemma event_loop_scannable (events : list Element) :
  Forall scannable events ->
  forall anomalies,
    event_loop events anomalies
    = Ret (anomalies ++ map anomaly_of (filter qualifies events)).
Proof.
  induction 1 as [|event rest [Htext Hid] _ IH]; intros anomalies.
  - simpl. now rewrite app_nil_r.
  - rewrite event_loop_cons. cbn [filter].
    destruct (find_path (lit "EventData") (lit "Data") event) as [desc|] eqn:Hd.
    2:{ rewrite (qualifies_without_data event Hd). apply IH. }
    specialize (Htext desc eq_refl).
    destruct (text desc) as [t|] eqn:Ht; [|congruence].
    rewrite (qualifies_with_data event desc t Hd Ht) in Hid |- *.
    destruct (contains_ignoring_case (lit "crash") t); [|apply IH].
    specialize (Hid eq_refl).
    destruct (find_path (lit "System") (lit "EventID") event) as [id|] eqn:Hi;
      [|congruence].
    rewrite IH. cbn [map].
    rewrite (anomaly_of_event event desc id t Hd Ht Hi). now rewrite <- app_assoc.
Qed.






Example event_log_of_the_sample_host :
  fst (parse_event_logs (lit "event_log.xml") sample_world)
  = Ret [crash_anomaly (Some (lit "42")) (lit "App crash detected")].
Proof. vm_compute. reflexivity. Qed.


(** C10. An [Event] at any depth below the root is among the events the
    extractor tests; when the scan returns and the event qualifies, its
    record is in the result, the same record as for an event right under
    the root; and the scan returns when the events below the root can be
    scanned. *)
Theorem nested_events_are_scanned :
  forall (root e : Element),
    below e root ->
    has_tag (lit "Event") e = true ->
    In e (findall_descendants (lit "Event") root)
    /\ (forall recs,
          scan_events root = Ret recs -> qualifies e = true -> In (anomaly_of e) recs)
    /\ (Forall scannable (findall_descendants (lit "Event") root) ->
        exists recs, scan_events root = Ret recs).
Proof.
  intros root e Hbelow Htag.
  assert (Hin : In e (findall_descendants (lit "Event") root))
    by now apply findall_descendants_below.
  split; [exact Hin|split].
  - intros recs Hret Hq. unfold scan_events in Hret.
    apply event_loop_ret in Hret. subst recs. simpl.
    apply in_map, filter_In. now split.
  - intros Hscan. eexists. unfold scan_events. now apply event_loop_scannable.
Qed.

Lemma sample_event_nested : below sample_event nested_document.
Proof.
  unfold nested_document.
  eapply below_deeper; [simpl; left; reflexivity|].
  eapply below_deeper; [simpl; left; reflexivity|].
  apply below_child. simpl. now left.
Qed.

Lemma nested_events_sample :
  below sample_event nested_document
  /\ has_tag (lit "Event") sample_event = true
  /\ In sample_event (findall_descendants (lit "Event") nested_document)
  /\ (forall recs,
        scan_events nested_document = Ret recs ->
        qualifies sample_event = true -> In (anomaly_of sample_event) recs)
  /\ (Forall scannable (findall_descendants (lit "Event") nested_document) ->
      exists recs, scan_events nested_document = Ret recs).
Proof.
  split; [exact sample_event_nested|]. split; [reflexivity|].
  exact (nested_events_are_scanned nested_document sample_event
           sample_event_nested eq_refl).
Defined.

Example nested_like_top_level :
  scan_events nested_document = scan_events sample_document
  /\ scan_events nested_document
     = Ret [crash_anomaly (Some (lit "42")) (lit "App crash detected")].
Proof. split; vm_compute; reflexivity. Qed.

(** ** The resource monitor *)

Lemma above_80_spec (x : Q) : above_80 x = true <-> (80 < x)%Q.
Proof.
  unfold above_80. rewrite negb_true_iff. split.
  - intros H. apply Qnot_le_lt. intros Hle. apply Qle_bool_iff in Hle. congruence.
  - intros H. destruct (Qle_bool x (80 # 1)) eqn:E; [|reflexivity].
    apply Qle_bool_iff in E. now apply Qlt_not_le in H.
Qed.

Lemma above_80_dec (x : Q) {A} (a b : A) :
  (if above_80 x then a else b) = (if Qlt_le_dec 80 x then a else b).
Proof.
  destruct (Qlt_le_dec 80 x) as [H|H].
  - apply above_80_spec in H. now rewrite H.
  - destruct (above_80 x) eqn:E; [|reflexivity].
    apply above_80_spec in E. now apply Qlt_not_le in E.
Qed.

Lemma sampled_percentages_flagged (w : World) (cpu mem : Q) :
  cpu_percent w = Ret cpu ->
  virtual_memory_percent w = Ret mem ->
  fst (check_resource_usage w)
  = Ret ((if Qlt_le_dec 80 cpu
          then [resource_flag (lit "High CPU usage") cpu] else [])
         ++ (if Qlt_le_dec 80 mem
             then [resource_flag (lit "High Memory usage") mem] else [])).
Proof.
  intros Hcpu Hmem.
  unfold check_resource_usage, try_except, sample_and_flag, bind, lift, ret. cbv beta.
  rewrite Hcpu. cbv beta iota. rewrite Hmem. cbv beta iota zeta. unfold fst.
  rewrite <- !above_80_dec.
  destruct (above_80 cpu), (above_80 mem); reflexivity.
Qed.

(** C5. When both percentages are measured, the monitor returns a flag
    for the CPU exactly when its percentage is strictly above 80, and
    one for the memory exactly when its percentage is strictly above 80,
    each with its fixed description and the measured value. *)
Theorem check_resource_usage_threshold :
  forall (w : World) (cpu mem : Q),
    cpu_percent w = Ret cpu ->
    virtual_memory_percent w = Ret mem ->
    exists flags,
      fst (check_resource_usage w) = Ret flags
      /\ flags
         = (if Qlt_le_dec 80 cpu
            then [resource_flag (lit "High CPU usage") cpu] else [])
           ++ (if Qlt_le_dec 80 mem
               then [resource_flag (lit "High Memory usage") mem] else [])
      /\ (In (resource_flag (lit "High CPU usage") cpu) flags <-> (80 < cpu)%Q)
      /\ (In (resource_flag (lit "High Memory usage") mem) flags <-> (80 < mem)%Q)
      /\ ((80 < cpu)%Q -> (mem <= 80)%Q ->
          flags = [resource_flag (lit "High CPU usage") cpu]).
Proof.
  intros w cpu mem Hcpu Hmem. eexists.
  split; [exact (sampled_percentages_flagged w cpu mem Hcpu Hmem)|].
  split; [reflexivity|].
  assert (Hnames : forall x y,
             resource_flag (lit "High Memory usage") x
             <> resource_flag (lit "High CPU usage") y).
  { intros x y H. vm_compute in H. discriminate. }
  destruct (Qlt_le_dec 80 cpu) as [Hc|Hc], (Qlt_le_dec 80 mem) as [Hm|Hm]; simpl;
    (split; [|split]).
  all: try (split; [intros _; assumption|intros _; auto]).
  all: try (intros _ Hle; exfalso; now apply (Qlt_not_le _ _ Hm)).
  all: try (intros _ _; reflexivity).
  all: try (intros Hlt; exfalso; now apply (Qlt_not_le _ _ Hlt)).
  all: split; intros H.
  all: try (exfalso; now apply (Qlt_not_le _ _ H)).
  all: repeat (destruct H as [H|H]); try contradiction.
  all: try (exfalso; now apply (Hnames _ _ H)).
  all: try (exfalso; symmetry in H; now apply (Hnames _ _ H)).
Qed.

Lemma check_resource_usage_sample :
  cpu_percent sample_world = Ret (85 # 1)
  /\ virtual_memory_percent sample_world = Ret (50 # 1)
  /\ exists flags,
      fst (check_resource_usage sample_world) = Ret flags
      /\ flags
         = (if Qlt_le_dec 80 (85 # 1)
            then [resource_flag (lit "High CPU usage") (85 # 1)] else [])
           ++ (if Qlt_le_dec 80 (50 # 1)
               then [resource_flag (lit "High Memory usage") (50 # 1)] else [])
      /\ (In (resource_flag (lit "High CPU usage") (85 # 1)) flags <-> (80 < 85 # 1)%Q)
      /\ (In (resource_flag (lit "High Memory usage") (50 # 1)) flags <-> (80 < 50 # 1)%Q)
      /\ ((80 < 85 # 1)%Q -> (50 # 1 <= 80)%Q ->
          flags = [resource_flag (lit "High CPU usage") (85 # 1)]).
Proof.
  split; [reflexivity|]. split; [reflexivity|].
  exact (check_resource_usage_threshold sample_world (85 # 1) (50 # 1) eq_refl eq_refl).
Defined.

Example cpu_85_memory_50 :
  fst (check_resource_usage sample_world)
  = Ret [resource_flag (lit "High CPU usage") (85 # 1)].
Proof. vm_compute. reflexivity. Qed.

Example cpu_exactly_80 :
  fst (check_resource_usage (set_samples (Ret (80 # 1)) (Ret (80 # 1)) sample_world))
  = Ret [].
Proof. vm_compute. reflexivity. Qed.

Lemma top_fallback_run (w : World) (result : CompletedProcess) :
  subprocess_run w [lit "top"; lit "-bn1"] = Ret result ->
  fst (top_fallback w) = Ret [top_record (stdout result)].
Proof.
  intros Hrun. unfold top_fallback, bind, lift, logging_info, ret. cbv beta.
  now rewrite Hrun.
Qed.

(** C4, as amended.  When sampling is unavailable, that is when one of
    the two samplers raises [ImportError], and [top] runs, the monitor
    returns the one fallback record: its description is "Resource check
    via top", it carries the first 200 characters of the standard output
    of [top], and it has no value.  An error of a sampler other than
    [ImportError] leaves the monitor as it is. *)
Theorem check_resource_usage_on_sampler_error :
  forall (w : World) (e : exn),
    cpu_percent w = Raise e
    \/ (exists cpu, cpu_percent w = Ret cpu /\ virtual_memory_percent w = Raise e) ->
    (is_ImportError e = true ->
     forall result,
       subprocess_run w [lit "top"; lit "-bn1"] = Ret result ->
       fst (check_resource_usage w) = Ret [top_record (stdout result)]
       /\ dict_get (lit "issue") (top_record (stdout result))
          = Some (PStr (lit "Resource check via top"))
       /\ dict_get (lit "output") (top_record (stdout result))
          = Some (PStr (firstn 200 (stdout result)))
       /\ dict_has (lit "value") (top_record (stdout result)) = false)
    /\ (is_ImportError e = false -> fst (check_resource_usage w) = Raise e).
Proof.
  intros w e Hraise.
  assert (Hrun : check_resource_usage w
                 = if is_ImportError e then top_fallback w else (Raise e, w)).
  { unfold check_resource_usage, try_except, sample_and_flag, bind, lift. cbv beta.
    destruct Hraise as [Hcpu|[cpu [Hcpu Hmem]]].
    - rewrite Hcpu. reflexivity.
    - rewrite Hcpu. cbv beta iota. rewrite Hmem. reflexivity. }
  rewrite Hrun. split; intros He; rewrite He.
  - intros result Htop. split; [now apply top_fallback_run|repeat split].
  - reflexivity.
Qed.

Lemma check_resource_usage_without_sampling :
  (cpu_percent host_without_sampling = Raise ImportError
   \/ (exists cpu, cpu_percent host_without_sampling = Ret cpu
                   /\ virtual_memory_percent host_without_sampling = Raise ImportError))
  /\ is_ImportError ImportError = true
  /\ subprocess_run host_without_sampling [lit "top"; lit "-bn1"]
     = Ret (mkCompletedProcess 0 (lit "top - 10:00:00 up 1 day") (lit "warning"))
  /\ fst (check_resource_usage host_without_sampling)
     = Ret [top_record (lit "top - 10:00:00 up 1 day")]
  /\ dict_get (lit "issue") (top_record (lit "top - 10:00:00 up 1 day"))
     = Some (PStr (lit "Resource check via top"))
  /\ dict_get (lit "output") (top_record (lit "top - 10:00:00 up 1 day"))
     = Some (PStr (firstn 200 (lit "top - 10:00:00 up 1 day")))
  /\ dict_has (lit "value") (top_record (lit "top - 10:00:00 up 1 day")) = false.
Proof.
  assert (H : cpu_percent host_without_sampling = Raise ImportError
              \/ (exists cpu, cpu_percent host_without_sampling = Ret cpu
                              /\ virtual_memory_percent host_without_sampling
                                 = Raise ImportError))
    by (left; reflexivity).
  split; [exact H|]. split; [reflexivity|]. split; [reflexivity|].
  exact (proj1 (check_resource_usage_on_sampler_error host_without_sampling
                  ImportError H)
           eq_refl
           (mkCompletedProcess 0 (lit "top - 10:00:00 up 1 day") (lit "warning"))
           eq_refl).
Defined.

(** C4 as worded fails on the code: an error of the sampler other than
    [ImportError] leaves the monitor; so does the [FileNotFoundError] of
    a missing [top] in the fallback; without [psutil] the import at the
    head of the module fails before the monitor can run; and the
    fallback record carries the standard output of [top] alone, not
    what it printed on the standard error. *)
Lemma check_resource_usage_fails_outward :
  fst (check_resource_usage host_with_failing_sampler)
  = Raise (OtherError (lit "AccessDenied"))
  /\ fst (check_resource_usage host_without_top) = Raise (FileNotFoundError (lit "top"))
  /\ fst ((import_toolkit ;; check_resource_usage) host_without_psutil)
     = Raise (ModuleNotFoundError (lit "psutil"))
  /\ (subprocess_run host_without_sampling [lit "top"; lit "-bn1"]
      = Ret (mkCompletedProcess 0 (lit "top - 10:00:00 up 1 day") (lit "warning"))
      /\ fst (check_resource_usage host_without_sampling)
         = Ret [ [ (lit "issue", PStr (lit "Resource check via top"));
                   (lit "output", PStr (lit "top - 10:00:00 up 1 day")) ] ]).
Proof. repeat split; vm_compute; reflexivity. Qed.

(** On the host without [top], the snapshot collector turns the same
    [FileNotFoundError] into a degraded snapshot. *)
Lemma simulate_system_snapshot_without_commands :
  fst (simulate_system_snapshot host_without_top)
  = Ret [(lit "error", lit "Commands not available on this system.")].
Proof. vm_compute. reflexivity. Qed.

(** ** The snapshot collector *)

Lemma slice_to_long (n : nat) (s : str) :
  n < List.length s -> List.length (slice_to n s) = n.
Proof. intros H. unfold slice_to. apply firstn_length_le. lia. Qed.

Lemma slice_to_short (n : nat) (s : str) :
  List.length s <= n -> slice_to n s = s.
Proof. intros H. unfold slice_to. now apply firstn_all2. Qed.

(** C6. When the two commands run, the snapshot holds the first 500
    characters of the output of each: exactly 500 characters of an
    output longer than that, and all of an output of 500 characters or
    fewer. *)
Theorem simulate_system_snapshot_truncates :
  forall (w : World) (ps netstat : CompletedProcess),
    subprocess_run w [lit "ps"; lit "aux"] = Ret ps ->
    subprocess_run w [lit "netstat"; lit "-an"] = Ret netstat ->
    exists snap,
      fst (simulate_system_snapshot w) = Ret snap
      /\ snap = [ (lit "processes", firstn 500 (stdout ps));
                  (lit "connections", firstn 500 (stdout netstat)) ]
      /\ (forall key out,
            In (key, out) [ (lit "processes", stdout ps);
                            (lit "connections", stdout netstat) ] ->
            (500 < List.length out ->
             List.length (snapshot_get key snap []) = 500)
            /\ (List.length out <= 500 -> snapshot_get key snap [] = out)).
Proof.
  intros w ps netstat Hps Hnet. eexists. split; [|split; [reflexivity|]].
  - unfold simulate_system_snapshot, try_except, bind, lift, ret. cbv beta.
    rewrite Hps. cbv beta iota zeta. rewrite Hnet. reflexivity.
  - intros key out [H|[H|[]]]; injection H as <- <-;
      (split; intros Hl; [exact (slice_to_long 500 _ Hl)|exact (slice_to_short 500 _ Hl)]).
Qed.

Lemma simulate_system_snapshot_long_output :
  subprocess_run host_with_long_output [lit "ps"; lit "aux"]
  = Ret (mkCompletedProcess 0 (repeat "x"%char 600) (lit "warning"))
  /\ subprocess_run host_with_long_output [lit "netstat"; lit "-an"]
     = Ret (mkCompletedProcess 0 (repeat "x"%char 600) (lit "warning"))
  /\ exists snap,
      fst (simulate_system_snapshot host_with_long_output) = Ret snap
      /\ snap = [ (lit "processes", firstn 500 (repeat "x"%char 600));
                  (lit "connections", firstn 500 (repeat "x"%char 600)) ]
      /\ (forall key out,
            In (key, out) [ (lit "processes", repeat "x"%char 600);
                            (lit "connections", repeat "x"%char 600) ] ->
            (500 < List.length out ->
             List.length (snapshot_get key snap []) = 500)
            /\ (List.length out <= 500 -> snapshot_get key snap [] = out)).
Proof.
  split; [reflexivity|]. split; [reflexivity|].
  exact (simulate_system_snapshot_truncates host_with_long_output
           (mkCompletedProcess 0 (repeat "x"%char 600) (lit "warning"))
           (mkCompletedProcess 0 (repeat "x"%char 600) (lit "warning"))
           eq_refl eq_refl).
Defined.

Example snapshot_of_600_characters :
  fst (simulate_system_snapshot host_with_long_output)
  = Ret [ (lit "processes", repeat "x"%char 500);
          (lit "connections", repeat "x"%char 500) ].
Proof. vm_compute. reflexivity. Qed.

(** ** The invariant of the Issue Records *)

Lemma isspace_lower (c : ascii) : isspace c = true -> lower_char c = c.
Proof. destruct c as [[] [] [] [] [] [] [] []]; intros H; try reflexivity; discriminate. Qed.

Lemma lstrip_keeps (c : ascii) (s : str) :
  In c s -> isspace c = false -> In c (lstrip s).
Proof.
  intros Hin Hc. induction s as [|a s IH]; [contradiction|].
  simpl. destruct (isspace a) eqn:Ea; [|exact Hin].
  destruct Hin as [->|Hin]; [congruence|auto].
Qed.

Lemma strip_keeps (c : ascii) (s : str) :
  In c s -> isspace c = false -> In c (strip s).
Proof.
  intros Hin Hc. unfold strip, rstrip.
  apply in_rev. rewrite rev_involutive.
  apply lstrip_keeps; [|exact Hc].
  apply in_rev. rewrite rev_involutive. now apply lstrip_keeps.
Qed.

(** A line that contains, in any case, a text starting with a visible
    character is not blank. *)
Lemma contains_ignoring_case_visible (a : ascii) (t line : str) :
  isspace (lower_char a) = false ->
  contains_ignoring_case (a :: t) line = true ->
  strip line <> [].
Proof.
  intros Ha H. unfold contains_ignoring_case, str_contains in H.
  apply contains_find in H as [i Hi].
  apply (find_sub_some ascii_eqb ascii_eqb_eq) in Hi.
  assert (Hin : In (lower_char a) (lower line)).
  { rewrite Hi. apply in_or_app. right. simpl. now left. }
  unfold lower in Hin. apply in_map_iff in Hin as [c [Hc Hin]].
  assert (Hsp : isspace c = false).
  { destruct (isspace c) eqn:E; [|reflexivity].
    rewrite (isspace_lower c E) in Hc. congruence. }
  intros Hnil. pose proof (strip_keeps c line Hin Hsp) as Hs.
  now rewrite Hnil in Hs.
Qed.

Lemma trigger_visible (line : str) : has_trigger line = true -> strip line <> [].
Proof.
  unfold has_trigger. intros H. apply existsb_exists in H as [t [Ht H]].
  destruct Ht as [<-|[<-|[<-|[]]]];
    (eapply contains_ignoring_case_visible; [|exact H]); reflexivity.
Qed.

Lemma ERROR_visible (line : str) : error_in_upper line = true -> strip line <> [].
Proof.
  rewrite error_in_upper_ignoring_case. intros H.
  eapply contains_ignoring_case_visible; [|exact H]. reflexivity.
Qed.

Lemma crash_visible (t : str) :
  contains_ignoring_case (lit "crash") t = true -> t <> [].
Proof. intros H ->. vm_compute in H. discriminate. Qed.

Lemma stamped_well_formed (clock : nat -> str) (lines : list str) :
  Forall (fun line => has_trigger line = true) lines ->
  forall n, Forall well_formed_issue (stamped clock n lines).
Proof.
  induction 1 as [|line rest Hline _ IH]; intros n; simpl; constructor; [|apply IH].
  exists UserConflict, (strip line).
  split; [reflexivity|]. split; [reflexivity|]. now apply trigger_visible.
Qed.

Lemma system_log_loop_well_formed (lines : list str) :
  forall errors recs,
    system_log_loop lines errors = Ret recs ->
    Forall well_formed_issue errors ->
    Forall well_formed_issue recs.
Proof.
  induction lines as [|line rest IH]; intros errors recs; simpl.
  - now intros [= <-].
  - destruct (error_in_upper line) eqn:Eu; [|apply IH].
    unfold system_error.
    destruct (nth_error (split ERROR line) 1) as [piece|]; [|discriminate].
    intros H Hwf. apply (IH _ _ H). apply Forall_app. split; [exact Hwf|].
    constructor; [|constructor].
    exists SystemError, (strip line).
    split; [reflexivity|]. split; [reflexivity|]. now apply ERROR_visible.
Qed.

Lemma event_loop_well_formed (events : list Element) :
  forall anomalies recs,
    event_loop events anomalies = Ret recs ->
    Forall well_formed_issue anomalies ->
    Forall well_formed_issue recs.
Proof.
  induction events as [|event rest IH]; intros anomalies recs.
  - simpl. now intros [= <-].
  - rewrite event_loop_cons.
    destruct (find_path (lit "EventData") (lit "Data") event) as [desc|]; [|apply IH].
    destruct (text desc) as [t|]; [|discriminate].
    destruct (contains_ignoring_case (lit "crash") t) eqn:Ec; [|apply IH].
    destruct (find_path (lit "System") (lit "EventID") event) as [id|]; [|discriminate].
    intros H Hwf. apply (IH _ _ H). apply Forall_app. split; [exact Hwf|].
    constructor; [|constructor].
    exists EventAnomaly, t.
    split; [reflexivity|]. split; [reflexivity|]. now apply crash_visible.
Qed.

Lemma resource_flag_well_formed (issue : str) (value : Q) :
  issue <> [] -> well_formed_issue (resource_flag issue value).
Proof.
  intros H. exists ResourceFlag, issue. split; [reflexivity|]. split; [reflexivity|exact H].
Qed.

Lemma top_record_well_formed (output : str) : well_formed_issue (top_record output).
Proof.
  exists ResourceFlag, (lit "Resource check via top").
  split; [reflexivity|]. split; [reflexivity|discriminate].
Qed.

Lemma top_fallback_well_formed (w : World) (recs : list dict) :
  fst (top_fallback w) = Ret recs -> Forall well_formed_issue recs.
Proof.
  unfold top_fallback, bind, lift, logging_info, ret. cbv beta.
  destruct (subprocess_run w [lit "top"; lit "-bn1"]) as [result|e]; simpl.
  - intros [= <-]. constructor; [apply top_record_well_formed|constructor].
  - discriminate.
Qed.

Lemma check_resource_usage_well_formed (w : World) (recs : list dict) :
  fst (check_resource_usage w) = Ret recs -> Forall well_formed_issue recs.
Proof.
  unfold check_resource_usage, try_except, sample_and_flag, bind, lift, ret. cbv beta.
  destruct (cpu_percent w) as [cpu|e]; cbv beta iota.
  - destruct (virtual_memory_percent w) as [mem|e]; cbv beta iota zeta.
    + unfold fst. intros [= <-].
      destruct (above_80 cpu), (above_80 mem); simpl;
        repeat constructor; apply resource_flag_well_formed; discriminate.
    + destruct (is_ImportError e); [apply top_fallback_well_formed|discriminate].
  - destruct (is_ImportError e); [apply top_fallback_well_formed|discriminate].
Qed.

(** C8. Every record an extractor returns (mode A, mode B, the event
    extractor, the resource monitor) has the shape of exactly one
    category and a description that is not empty. *)
Theorem issue_records_well_formed :
  forall (w : World) (recs : list dict),
    (exists path, fst (analyze_user_log path w) = Ret recs)
    \/ (exists path, fst (analyze_system_logs path w) = Ret recs)
    \/ (exists path, fst (parse_event_logs path w) = Ret recs)
    \/ fst (check_resource_usage w) = Ret recs ->
    Forall well_formed_issue recs.
Proof.
  intros w recs [[path H]|[[path H]|[[path H]|H]]].
  - unfold analyze_user_log, bind, os_path_exists, open_read, raise in H.
    cbv beta in H. destruct (file_content w path) as [content|] eqn:Hfile.
    + cbv beta iota delta [negb] in H. rewrite Hfile in H.
      rewrite user_log_loop_spec in H. injection H as <-.
      apply stamped_well_formed, Forall_forall. intros line Hin.
      now apply filter_In in Hin.
    + discriminate.
  - unfold analyze_system_logs, bind, open_read, lift in H. cbv beta in H.
    destruct (file_content w path) as [content|]; [|discriminate].
    cbv beta iota in H. unfold fst in H.
    now apply (system_log_loop_well_formed _ _ _ H).
  - unfold parse_event_logs, bind, os_path_exists, open_read, lift, raise in H.
    cbv beta in H. destruct (file_content w path) as [content|] eqn:Hfile;
      [|discriminate].
    cbv beta iota delta [negb] in H. rewrite Hfile in H. cbv beta iota in H.
    destruct (ET_parse w content) as [root|e]; [|discriminate].
    cbv beta iota in H. unfold fst, scan_events in H.
    now apply (event_loop_well_formed _ _ _ H).
  - exact (check_resource_usage_well_formed w recs H).
Qed.

Lemma issue_records_sample :
  ((exists path, fst (analyze_user_log path sample_world) = Ret sample_issues_now)
   \/ (exists path, fst (analyze_system_logs path sample_world) = Ret sample_issues_now)
   \/ (exists path, fst (parse_event_logs path sample_world) = Ret sample_issues_now)
   \/ fst (check_resource_usage sample_world) = Ret sample_issues_now)
  /\ Forall well_formed_issue sample_issues_now.
Proof.
  assert (H : (exists path, fst (analyze_user_log path sample_world) = Ret sample_issues_now)
              \/ (exists path, fst (analyze_system_logs path sample_world)
                               = Ret sample_issues_now)
              \/ (exists path, fst (parse_event_logs path sample_world)
                               = Ret sample_issues_now)
              \/ fst (check_resource_usage sample_world) = Ret sample_issues_now).
  { left. exists (lit "user_log.txt"). vm_compute. reflexivity. }
  split; [exact H|].
  exact (issue_records_well_formed sample_world sample_issues_now H).
Defined.

(** ** The report assembler *)

Lemma bind_step {A B} (m : M A) (k : A -> M B) (w w' : World) (a : A) :
  m w = (Ret a, w') -> bind m k w = k a w'.
Proof. intros H. unfold bind. now rewrite H. Qed.

Lemma bind_raise {A B} (m : M A) (k : A -> M B) (w w' : World) (e : exn) :
  m w = (Raise e, w') -> bind m k w = (Raise e, w').
Proof. intros H. unfold bind. now rewrite H. Qed.

Lemma write_json_report_run (w : World) (issues errors flags anomalies : list dict)
    (snap : snapshot) (json_output : str) :
  write_fails w json_output = false ->
  write_json_report issues errors flags anomalies snap json_output w
  = (Ret tt,
     set_log (log w ++ [lit "JSON report generated at " ++ json_output])
       (set_files
          ((json_output,
            json_encode (float_repr w) 0
              (report issues errors flags anomalies snap
                 (isoformat_of_call w (now_calls w))))
           :: files w)
          (set_now_calls (S (now_calls w)) w))).
Proof.
  intros Hw.
  unfold write_json_report, bind, now_isoformat, open_write, lift, file_write, logging_info.
  cbn -[json_encode report lit]. rewrite Hw. cbn -[json_encode report lit].
  now rewrite str_eqb_refl.
Qed.

Lemma write_json_report_locked (w : World) (issues errors flags anomalies : list dict)
    (snap : snapshot) (json_output : str) :
  write_fails w json_output = true ->
  write_json_report issues errors flags anomalies snap json_output w
  = (Raise (OSError json_output), set_now_calls (S (now_calls w)) w).
Proof.
  intros Hw.
  unfold write_json_report, bind, now_isoformat, open_write.
  cbn -[json_encode report lit]. now rewrite Hw.
Qed.

Lemma write_md_report_locked (w : World) (issues errors flags anomalies : list dict)
    (snap : snapshot) (md_output : str) :
  write_fails w md_output = true ->
  write_md_report issues errors flags anomalies snap md_output w
  = (Raise (OSError md_output), w).
Proof.
  intros Hw. unfold write_md_report. apply bind_raise.
  unfold open_write. now rewrite Hw.
Qed.

(** C7, as amended.  When the structured report cannot be opened for
    writing, the error names its path and no file is written, the
    narrative report included; when the structured report is written
    and the narrative report cannot be opened, the error names the path
    of the narrative report and the structured report stays written. *)
Theorem generate_support_report_write_failure :
  forall (w : World) (issues errors flags anomalies : list dict) (snap : snapshot)
         (json_output md_output : str),
    let run := generate_support_report issues errors flags anomalies snap
                 json_output md_output w in
    (write_fails w json_output = true ->
     fst run = Raise (OSError json_output)
     /\ files (snd run) = files w)
    /\ (write_fails w json_output = false ->
        write_fails w md_output = true ->
        fst run = Raise (OSError md_output)
        /\ files (snd run)
           = (json_output,
              json_encode (float_repr w) 0
                (report issues errors flags anomalies snap
                   (isoformat_of_call w (now_calls w))))
             :: files w).
Proof.
  intros w issues errors flags anomalies snap json_output md_output run.
  subst run. unfold generate_support_report. split.
  - intros Hj.
    rewrite (bind_raise _ _ _ _ _
               (write_json_report_locked w issues errors flags anomalies snap
                  json_output Hj)).
    split; reflexivity.
  - intros Hj Hm.
    rewrite (bind_step _ _ _ _ _
               (write_json_report_run w issues errors flags anomalies snap
                  json_output Hj)).
    rewrite write_md_report_locked by exact Hm.
    split; reflexivity.
Qed.

Lemma generate_support_report_locked_md :
  let run := generate_support_report sample_issues [] [] [] sample_snapshot
               (lit "support_report.json") (lit "support_report.md")
               host_with_locked_md in
  (write_fails host_with_locked_md (lit "support_report.json") = false
   /\ write_fails host_with_locked_md (lit "support_report.md") = true)
  /\ fst run = Raise (OSError (lit "support_report.md"))
  /\ files (snd run)
     = (lit "support_report.json",
        json_encode (float_repr host_with_locked_md) 0
          (report sample_issues [] [] [] sample_snapshot
             (isoformat_of_call host_with_locked_md (now_calls host_with_locked_md))))
       :: files host_with_locked_md.
Proof.
  split; [split; reflexivity|].
  exact (proj2 (generate_support_report_write_failure host_with_locked_md
                  sample_issues [] [] [] sample_snapshot
                  (lit "support_report.json") (lit "support_report.md"))
           eq_refl eq_refl).
Defined.

(** C7 as worded fails when it is the structured report that cannot be
    written: the error leaves the assembler before the narrative report
    is opened, and no narrative report is produced. *)
Lemma locked_json_leaves_no_md :
  let run := generate_support_report sample_issues [] [] [] sample_snapshot
               (lit "support_report.json") (lit "support_report.md")
               host_with_locked_json in
  write_fails host_with_locked_json (lit "support_report.md") = false
  /\ fst run = Raise (OSError (lit "support_report.json"))
  /\ file_content (snd run) (lit "support_report.md") = None.
Proof. repeat split; vm_compute; reflexivity. Qed.

(** *** What the two reports depend on *)

Lemma appends_ret {A} (path : str) (a : A) : appends path (ret a).
Proof.
  intros repr. exists [], (Ret a). intros w c rest Hr Hf. simpl.
  rewrite app_nil_r. auto.
Qed.

Lemma appends_raise {A} (path : str) (e : exn) : appends path (@raise A e).
Proof.
  intros repr. exists [], (Raise e). intros w c rest Hr Hf. simpl.
  rewrite app_nil_r. auto.
Qed.

Lemma appends_file_write (path s : str) : appends path (file_write path s).
Proof.
  intros repr. exists s, (Ret tt). intros w c rest Hr Hf.
  unfold file_write. cbn -[lit]. rewrite Hf. cbn -[lit].
  rewrite str_eqb_refl. auto.
Qed.

Lemma appends_float_repr (path : str) :
  appends path (lift (fun w => Ret (float_repr w))).
Proof.
  intros repr. exists [], (Ret repr). intros w c rest Hr Hf.
  unfold lift. cbn. rewrite app_nil_r, Hr. auto.
Qed.

Lemma appends_logging_info (path msg : str) : appends path (logging_info msg).
Proof.
  intros repr. exists [], (Ret tt). intros w c rest Hr Hf.
  unfold logging_info. cbn -[lit]. rewrite app_nil_r. auto.
Qed.

Lemma appends_dict_item (path : str) (d : dict) (k : str) :
  appends path (dict_item d k).
Proof.
  unfold dict_item. destruct (dict_get k d); [apply appends_ret|apply appends_raise].
Qed.

Lemma appends_bind {A B} (path : str) (m : M A) (k : A -> M B) :
  appends path m -> (forall a, appends path (k a)) -> appends path (bind m k).
Proof.
  intros Hm Hk repr. destruct (Hm repr) as [t1 [o1 H1]]. destruct o1 as [a|e].
  - destruct (Hk a repr) as [t2 [o2 H2]]. exists (t1 ++ t2), o2.
    intros w c rest Hr Hf. destruct (H1 w c rest Hr Hf) as [Ho [Hfiles Hrepr]].
    unfold bind. destruct (m w) as [o w']. simpl in Ho, Hfiles, Hrepr. subst o.
    rewrite app_assoc. now apply H2.
  - exists t1, (Raise e).
    intros w c rest Hr Hf. destruct (H1 w c rest Hr Hf) as [Ho [Hfiles Hrepr]].
    unfold bind. destruct (m w) as [o w']. simpl in Ho, Hfiles, Hrepr. subst o.
    simpl. auto.
Qed.

Lemma appends_for_each {A} (path : str) (l : list A) (body : A -> M unit) :
  (forall x, appends path (body x)) -> appends path (for_each l body).
Proof.
  intros Hbody. induction l as [|x l IH]; simpl.
  - apply appends_ret.
  - apply appends_bind; [apply Hbody|intros _; exact IH].
Qed.

Lemma appends_bullet (path label k1 sep k2 : str) (d : dict) :
  appends path (bullet path label k1 sep k2 d).
Proof.
  unfold bullet.
  apply appends_bind; [apply appends_dict_item|intros v1].
  apply appends_bind; [apply appends_dict_item|intros v2].
  apply appends_bind; [apply appends_float_repr|intros repr].
  apply appends_file_write.
Qed.

Lemma appends_flag_bullet (path : str) (d : dict) :
  appends path (flag_bullet path d).
Proof.
  unfold flag_bullet.
  apply appends_bind; [apply appends_dict_item|intros v1].
  apply appends_bind; [apply appends_float_repr|intros repr].
  apply appends_file_write.
Qed.

Lemma appends_write_md_sections (issues errors flags anomalies : list dict)
    (snap : snapshot) (md_output : str) :
  appends md_output (write_md_sections issues errors flags anomalies snap md_output).
Proof.
  unfold write_md_sections.
  repeat (apply appends_bind; [|intros _]);
    first [apply appends_file_write
          |apply appends_for_each; intros d;
           first [apply appends_bullet|apply appends_flag_bullet]].
Qed.

Lemma join_cons (sep p : str) (parts : list str) :
  join sep (p :: parts) = p ++ join_after sep parts.
Proof.
  revert p. induction parts as [|q parts IH]; intros p; simpl.
  - now rewrite app_nil_r.
  - change (join sep (q :: parts)) with
      (match parts with [] => q | _ => q ++ sep ++ join sep parts end).
    specialize (IH q). simpl in IH. rewrite IH. now rewrite <- !app_assoc.
Qed.

Lemma join_app_cons (sep : str) (before : list str) (p : str) (after : list str) :
  join sep (before ++ p :: after)
  = join_before sep before ++ p ++ join_after sep after.
Proof.
  induction before as [|q before IH].
  - apply join_cons.
  - simpl app. rewrite join_cons.
    assert (E : join_after sep (before ++ p :: after) = sep ++ join sep (before ++ p :: after)).
    { destruct (before ++ p :: after) as [|r l] eqn:El.
      - now destruct before.
      - rewrite join_cons. simpl. now rewrite <- app_assoc. }
    rewrite E, IH. simpl. now rewrite <- !app_assoc.
Qed.

Lemma json_encode_dict (repr : Q -> str) (level : nat) (members : list (str * json)) :
  members <> [] ->
  json_encode repr level (JDict members)
  = lit "{" ++ newline_indent (S level)
    ++ join (lit "," ++ newline_indent (S level))
            (map (fun kv => let '(k, v) := kv in
                            json_string k ++ lit ": " ++ json_encode repr (S level) v)
                 members)
    ++ newline_indent level ++ lit "}".
Proof. destruct members; [congruence|reflexivity]. Qed.

(** The rendering of an object around the value of one of its members. *)
Lemma json_encode_member (repr : Q -> str) (level : nat)
    (before : list (str * json)) (k : str) (v : json) (after : list (str * json)) :
  let member := fun kv : str * json =>
                  let '(k, v) := kv in
                  json_string k ++ lit ": " ++ json_encode repr (S level) v in
  let sep := lit "," ++ newline_indent (S level) in
  json_encode repr level (JDict (before ++ (k, v) :: after))
  = (lit "{" ++ newline_indent (S level)
     ++ join_before sep (map member before) ++ json_string k ++ lit ": ")
    ++ json_encode repr (S level) v
    ++ (join_after sep (map member after) ++ newline_indent level ++ lit "}").
Proof.
  intros member sep. rewrite json_encode_dict by (now destruct before).
  fold member. fold sep. rewrite map_app. cbn [map].
  rewrite join_app_cons. unfold member at 2.
  now rewrite <- !app_assoc.
Qed.

Lemma report_members (issues errors flags anomalies : list dict) (snap : snapshot)
    (timestamp : str) :
  report issues errors flags anomalies snap timestamp
  = JDict
      ([ (lit "summary", JStr (summary issues errors flags anomalies));
         (lit "user_issues", JList (map json_of_dict issues));
         (lit "system_errors", JList (map json_of_dict errors));
         (lit "resource_flags", JList (map json_of_dict flags));
         (lit "anomalies", JList (map json_of_dict anomalies));
         (lit "system_snapshot", json_of_snapshot snap) ]
       ++ (lit "timestamp", JStr timestamp)
          :: [ (lit "recommendations", JList (map JStr RECOMMENDATIONS)) ]).
Proof. reflexivity. Qed.

(** The structured report is a fixed text around its timestamp. *)
Lemma json_report_around_timestamp (issues errors flags anomalies : list dict)
    (snap : snapshot) (repr : Q -> str) :
  exists before after,
  forall timestamp,
    json_encode repr 0 (report issues errors flags anomalies snap timestamp)
    = before ++ json_string timestamp ++ after.
Proof.
  eexists. eexists. intros timestamp.
  rewrite report_members. rewrite json_encode_member. reflexivity.
Qed.

(** The narrative report is a fixed text around its timestamp. *)
Lemma write_md_report_run (issues errors flags anomalies : list dict)
    (snap : snapshot) (md_output : str) (repr : Q -> str) :
  exists (sections : str) (o : outcome unit),
  forall w,
    float_repr w = repr ->
    write_fails w md_output = false ->
    fst (write_md_report issues errors flags anomalies snap md_output w) = o
    /\ files (snd (write_md_report issues errors flags anomalies snap md_output w))
       = (md_output,
          (lit "# Remote IT Support Report" ++ [LF; LF] ++ lit "## Timestamp: ")
          ++ isoformat_of_call w (now_calls w)
          ++ ([LF; LF] ++ sections))
         :: files w.
Proof.
  destruct (appends_write_md_sections issues errors flags anomalies snap md_output repr)
    as [sections [o H]].
  exists sections, o. intros w Hr Hw.
  unfold write_md_report, bind, open_write, now_isoformat, file_write, logging_info.
  rewrite Hw.
  repeat (progress (cbn -[lit write_md_sections]; rewrite ?str_eqb_refl)).
  match goal with
  | |- context [write_md_sections _ _ _ _ _ _ ?w4] =>
      destruct (H w4 (lit "# Remote IT Support Report" ++ [LF; LF]
                      ++ lit "## Timestamp: " ++ isoformat_of_call w (now_calls w)
                      ++ [LF; LF])
                  (files w) Hr) as [Ho [Hf _]];
      [cbn -[lit]; now rewrite <- !app_assoc|];
      destruct (write_md_sections issues errors flags anomalies snap md_output w4)
        as [o' w']
  end.
  simpl in Ho, Hf. subst o'. destruct o as [[]|e]; simpl; rewrite Hf;
    (split; [reflexivity|]); now rewrite <- !app_assoc.
Qed.

(** Both reports of one run, around the two readings of the clock. *)
Lemma generate_support_report_run (issues errors flags anomalies : list dict)
    (snap : snapshot) (json_output md_output : str) (repr : Q -> str) :
  json_output <> md_output ->
  exists json_before json_after md_before md_after o,
  forall w,
    float_repr w = repr ->
    write_fails w json_output = false ->
    write_fails w md_output = false ->
    let run := generate_support_report issues errors flags anomalies snap
                 json_output md_output w in
    fst run = o
    /\ file_content (snd run) json_output
       = Some (json_before ++ json_string (isoformat_of_call w (now_calls w))
               ++ json_after)
    /\ file_content (snd run) md_output
       = Some (md_before ++ isoformat_of_call w (S (now_calls w)) ++ md_after).
Proof.
  intros Hpaths.
  destruct (json_report_around_timestamp issues errors flags anomalies snap repr)
    as [jb [ja Hjson]].
  destruct (write_md_report_run issues errors flags anomalies snap md_output repr)
    as [sections [o Hmd]].
  exists jb, ja,
    (lit "# Remote IT Support Report" ++ [LF; LF] ++ lit "## Timestamp: "),
    ([LF; LF] ++ sections), o.
  intros w Hr Hj Hm run. subst run. unfold generate_support_report.
  rewrite (bind_step _ _ _ _ _
             (write_json_report_run w issues errors flags anomalies snap
                json_output Hj)).
  match goal with
  | |- context [write_md_report _ _ _ _ _ _ ?w1] =>
      destruct (Hmd w1 Hr Hm) as [Ho Hf]
  end.
  split; [exact Ho|]. unfold file_content. rewrite Hf.
  cbn -[lit json_encode report]. rewrite str_eqb_refl.
  rewrite (str_eqb_neq md_output json_output) by congruence.
  rewrite str_eqb_refl. rewrite Hr, Hjson. split; reflexivity.
Qed.

(** C9. Two runs of the assembler on the same inputs, at different
    times, end alike and write the same two files but for the
    timestamps: each file is the same text before and after its
    timestamp in both runs. *)
Theorem two_runs_differ_only_in_timestamps :
  forall (issues errors flags anomalies : list dict) (snap : snapshot)
         (json_output md_output : str) (w1 w2 : World),
    json_output <> md_output ->
    float_repr w1 = float_repr w2 ->
    write_fails w1 json_output = false ->
    write_fails w1 md_output = false ->
    write_fails w2 json_output = false ->
    write_fails w2 md_output = false ->
    let run1 := generate_support_report issues errors flags anomalies snap
                  json_output md_output w1 in
    let run2 := generate_support_report issues errors flags anomalies snap
                  json_output md_output w2 in
    fst run1 = fst run2
    /\ exists json_before json_after md_before md_after,
        file_content (snd run1) json_output
        = Some (json_before ++ json_string (isoformat_of_call w1 (now_calls w1))
                ++ json_after)
        /\ file_content (snd run2) json_output
           = Some (json_before ++ json_string (isoformat_of_call w2 (now_calls w2))
                   ++ json_after)
        /\ file_content (snd run1) md_output
           = Some (md_before ++ isoformat_of_call w1 (S (now_calls w1)) ++ md_after)
        /\ file_content (snd run2) md_output
           = Some (md_before ++ isoformat_of_call w2 (S (now_calls w2)) ++ md_after).
Proof.
  intros issues errors flags anomalies snap json_output md_output w1 w2
         Hpaths Hrepr Hj1 Hm1 Hj2 Hm2 run1 run2.
  destruct (generate_support_report_run issues errors flags anomalies snap
              json_output md_output (float_repr w1) Hpaths)
    as [jb [ja [mb [ma [o H]]]]].
  destruct (H w1 eq_refl Hj1 Hm1) as [Ho1 [Hjson1 Hmd1]].
  destruct (H w2 (eq_sym Hrepr) Hj2 Hm2) as [Ho2 [Hjson2 Hmd2]].
  split; [subst run1 run2; congruence|].
  exists jb, ja, mb, ma. auto.
Qed.

Lemma two_runs_on_the_sample_host :
  let first := generate_support_report sample_issues [] [] [] sample_snapshot
                 (lit "support_report.json") (lit "support_report.md") sample_world in
  let w2 := snd first in
  let second := generate_support_report sample_issues [] [] [] sample_snapshot
                  (lit "support_report.json") (lit "support_report.md") w2 in
  (lit "support_report.json" <> lit "support_report.md"
   /\ float_repr sample_world = float_repr w2
   /\ write_fails sample_world (lit "support_report.json") = false
   /\ write_fails sample_world (lit "support_report.md") = false
   /\ write_fails w2 (lit "support_report.json") = false
   /\ write_fails w2 (lit "support_report.md") = false)
  /\ fst first = fst second
  /\ exists json_before json_after md_before md_after,
      file_content (snd first) (lit "support_report.json")
      = Some (json_before
              ++ json_string (isoformat_of_call sample_world (now_calls sample_world))
              ++ json_after)
      /\ file_content (snd second) (lit "support_report.json")
         = Some (json_before ++ json_string (isoformat_of_call w2 (now_calls w2))
                 ++ json_after)
      /\ file_content (snd first) (lit "support_report.md")
         = Some (md_before
                 ++ isoformat_of_call sample_world (S (now_calls sample_world))
                 ++ md_after)
      /\ file_content (snd second) (lit "support_report.md")
         = Some (md_before ++ isoformat_of_call w2 (S (now_calls w2)) ++ md_after).
Proof.
  intros first w2 second.
  assert (Hpaths : lit "support_report.json" <> lit "support_report.md")
    by (vm_compute; discriminate).
  split; [repeat split; solve [exact Hpaths|reflexivity]|].
  exact (two_runs_differ_only_in_timestamps sample_issues [] [] [] sample_snapshot
           (lit "support_report.json") (lit "support_report.md") sample_world w2
           Hpaths eq_refl eq_refl eq_refl eq_refl eq_refl).
Defined.

(** * Further properties of the code *)

(** ** Missing input files *)

(** X1. On a path that does not exist, each of the three file
    extractors raises [FileNotFoundError] and leaves the world as it
    was: mode A and the event extractor with their own message naming
    the path, mode B with the error of [open] itself. *)
Theorem extractors_on_missing_file :
  forall (w : World) (path : str),
    file_content w path = None ->
    analyze_user_log path w
    = (Raise (FileNotFoundError (lit "Log file not found: " ++ path)), w)
    /\ analyze_system_logs path w = (Raise (FileNotFoundError path), w)
    /\ parse_event_logs path w
       = (Raise (FileNotFoundError (lit "Event log file not found: " ++ path)), w).
Proof.
  intros w path Hnone. repeat split.
  - unfold analyze_user_log, bind, os_path_exists. now rewrite Hnone.
  - unfold analyze_system_logs, bind, open_read. now rewrite Hnone.
  - unfold parse_event_logs, bind, os_path_exists. now rewrite Hnone.
Qed.

Lemma extractors_on_host_without_files :
  file_content host_without_files (lit "user_log.txt") = None
  /\ analyze_user_log (lit "user_log.txt") host_without_files
     = (Raise (FileNotFoundError (lit "Log file not found: " ++ lit "user_log.txt")),
        host_without_files)
  /\ analyze_system_logs (lit "user_log.txt") host_without_files
     = (Raise (FileNotFoundError (lit "user_log.txt")), host_without_files)
  /\ parse_event_logs (lit "user_log.txt") host_without_files
     = (Raise (FileNotFoundError
                 (lit "Event log file not found: " ++ lit "user_log.txt")),
        host_without_files).
Proof.
  split; [reflexivity|].
  exact (extractors_on_missing_file host_without_files (lit "user_log.txt") eq_refl).
Defined.

(** ** The clock and the files under mode A *)

Lemma user_log_loop_effects (lines : list str) :
  forall (issues : list dict) (w : World),
    let w' := snd (user_log_loop lines issues w) in
    files w' = files w
    /\ log w' = log w
    /\ now_calls w' = now_calls w + List.length (filter has_trigger lines).
Proof.
  induction lines as [|line rest IH]; intros issues w; simpl user_log_loop.
  - simpl. auto.
  - simpl filter. rewrite <- re_search_trigger.
    destruct (re_search USER_LOG_PATTERN line 0); simpl is_some; cbv iota.
    + unfold bind, now_isoformat.
      destruct (IH (issues ++ [user_issue (isoformat_of_call w (now_calls w)) line])
                  (set_now_calls (S (now_calls w)) w)) as [Hf [Hl Hn]].
      simpl in Hf, Hl, Hn. simpl. rewrite Hf, Hl, Hn. repeat split; lia.
    + destruct (IH issues w) as [Hf [Hl Hn]]. simpl in *. rewrite Hf, Hl, Hn.
      repeat split; lia.
Qed.

(** X2. Mode A reads the clock once for each record it returns and not
    at all otherwise, and it leaves the files and the log as they
    were. *)
Theorem analyze_user_log_effects :
  forall (w : World) (log_path : str),
    let run := analyze_user_log log_path w in
    files (snd run) = files w
    /\ log (snd run) = log w
    /\ now_calls (snd run)
       = now_calls w
         + match fst run with
           | Ret issues => List.length issues
           | Raise _ => 0
           end.
Proof.
  intros w log_path run. subst run.
  unfold analyze_user_log, bind, os_path_exists, open_read, raise. cbv beta.
  destruct (file_content w log_path) as [content|] eqn:Hfile.
  - cbv beta iota delta [negb]. rewrite Hfile.
    destruct (user_log_loop_effects (readlines content) [] w) as [Hf [Hl Hn]].
    pose proof (user_log_loop_spec (readlines content) [] w) as Hret.
    destruct (user_log_loop (readlines content) [] w) as [o w']. simpl in *.
    subst o. repeat split; auto. rewrite Hn. f_equal.
    rewrite <- (length_map (dict_get (lit "description"))), stamped_descriptions.
    now rewrite length_map.
  - simpl. repeat split; lia.
Qed.

(** ** Mode B as a whole *)

Lemma system_log_loop_closed (lines : list str) :
  forall errors,
    system_log_loop lines errors
    = if forallb mode_B_can_cut lines
      then Ret (errors ++ map mode_B_record (filter (str_contains ERROR) lines))
      else Raise IndexError.
Proof.
  induction lines as [|line rest IH]; intros errors; simpl.
  - now rewrite app_nil_r.
  - unfold mode_B_can_cut at 1.
    destruct (error_in_upper line) eqn:Eu, (str_contains ERROR line) eqn:El; simpl.
    + rewrite system_error_literal by exact El. rewrite IH.
      destruct (forallb mode_B_can_cut rest); [|reflexivity].
      now rewrite <- app_assoc.
    + now rewrite system_error_no_literal by exact El.
    + apply literal_ERROR_in_upper in El. congruence.
    + apply IH.
Qed.

(** X3. Mode B is all or nothing: when every line that passes its test
    holds a literal "ERROR" it returns the records of those lines, and
    when one line passes the test without a literal "ERROR" (the word
    in another case) the whole call raises [IndexError], whatever the
    other lines are. *)
Theorem analyze_system_logs_all_or_nothing :
  forall (w : World) (log_path content : str),
    file_content w log_path = Some content ->
    analyze_system_logs log_path w
    = (if forallb mode_B_can_cut (readlines content)
       then Ret (map mode_B_record (filter (str_contains ERROR) (readlines content)))
       else Raise IndexError,
       w).
Proof.
  intros w log_path content Hfile.
  unfold analyze_system_logs, bind, open_read, lift. rewrite Hfile.
  now rewrite system_log_loop_closed.
Qed.

Lemma analyze_system_logs_on_sample_log :
  file_content sample_world (lit "system_log.txt") = Some sample_system_log
  /\ analyze_system_logs (lit "system_log.txt") sample_world
     = (if forallb mode_B_can_cut (readlines sample_system_log)
        then Ret (map mode_B_record
                    (filter (str_contains ERROR) (readlines sample_system_log)))
        else Raise IndexError,
        sample_world).
Proof.
  split; [reflexivity|].
  exact (analyze_system_logs_all_or_nothing sample_world (lit "system_log.txt")
           sample_system_log eq_refl).
Defined.

Example one_lowercase_line_spoils_the_log :
  system_log_loop (readlines sample_system_log ++ [lowercase_error_line]) []
  = Raise IndexError.
Proof. vm_compute. reflexivity. Qed.

(** ** Mode A against mode B *)

Lemma error_in_upper_is_trigger (line : str) :
  error_in_upper line = true -> has_trigger line = true.
Proof.
  rewrite error_in_upper_ignoring_case. intros H.
  unfold has_trigger, TRIGGERS. simpl existsb.
  change (contains_ignoring_case (lit "error") line)
    with (contains_ignoring_case ERROR line).
  rewrite H. apply orb_true_r.
Qed.

Lemma filter_length_le {A} (p q : A -> bool) (l : list A) :
  (forall x, p x = true -> q x = true) ->
  List.length (filter p l) <= List.length (filter q l).
Proof.
  intros Hpq. induction l as [|x l IH]; simpl; [lia|].
  destruct (p x) eqn:Ep.
  - rewrite (Hpq x Ep). simpl. lia.
  - destruct (q x); simpl; lia.
Qed.

(** X4. On the same file, whatever mode B reports mode A reports too:
    when mode B returns, the description of each of its records is the
    description of a record of mode A, and mode A returns at least as
    many records. *)
Theorem mode_A_covers_mode_B :
  forall (w : World) (log_path content : str) (errors : list dict),
    file_content w log_path = Some content ->
    fst (analyze_system_logs log_path w) = Ret errors ->
    exists issues,
      fst (analyze_user_log log_path w) = Ret issues
      /\ incl (map (dict_get (lit "description")) errors)
              (map (dict_get (lit "description")) issues)
      /\ List.length errors <= List.length issues.
Proof.
  intros w log_path content errors Hfile Hret.
  exists (stamped (isoformat_of_call w) (now_calls w)
            (filter has_trigger (readlines content))).
  assert (Hlit : forall line, str_contains ERROR line = true -> has_trigger line = true).
  { intros line H. now apply error_in_upper_is_trigger, literal_ERROR_in_upper. }
  unfold analyze_system_logs, bind, open_read, lift in Hret. rewrite Hfile in Hret.
  cbv beta iota in Hret. unfold fst in Hret. rewrite system_log_loop_closed in Hret.
  destruct (forallb mode_B_can_cut (readlines content)); [|discriminate].
  injection Hret as <-. simpl app. split; [|split].
  - unfold analyze_user_log, bind, os_path_exists, open_read. cbv beta.
    rewrite Hfile. cbv beta iota delta [negb]. rewrite Hfile.
    apply user_log_loop_spec.
  - rewrite stamped_descriptions. intros d Hd.
    rewrite map_map in Hd. apply in_map_iff in Hd as [line [<- Hline]].
    apply filter_In in Hline as [Hin Hl].
    change (dict_get (lit "description") (mode_B_record line))
      with ((fun l => Some (PStr (strip l))) line).
    apply in_map, filter_In. auto.
  - rewrite length_map.
    rewrite <- (length_map (dict_get (lit "description"))
                  (stamped _ _ _)), stamped_descriptions, length_map.
    now apply filter_length_le.
Qed.

Lemma mode_A_covers_mode_B_on_sample_log :
  file_content sample_world (lit "system_log.txt") = Some sample_system_log
  /\ fst (analyze_system_logs (lit "system_log.txt") sample_world)
     = Ret [mode_B_record (lit "kernel ERROR  E1234 disk timeout" ++ [LF])]
  /\ exists issues,
      fst (analyze_user_log (lit "system_log.txt") sample_world) = Ret issues
      /\ incl (map (dict_get (lit "description"))
                 [mode_B_record (lit "kernel ERROR  E1234 disk timeout" ++ [LF])])
              (map (dict_get (lit "description")) issues)
      /\ List.length [mode_B_record (lit "kernel ERROR  E1234 disk timeout" ++ [LF])]
         <= List.length issues.
Proof.
  assert (H : fst (analyze_system_logs (lit "system_log.txt") sample_world)
              = Ret [mode_B_record (lit "kernel ERROR  E1234 disk timeout" ++ [LF])])
    by (vm_compute; reflexivity).
  split; [reflexivity|]. split; [exact H|].
  exact (mode_A_covers_mode_B sample_world (lit "system_log.txt") sample_system_log
           _ eq_refl H).
Defined.

(** ** Trimmed descriptions *)

Lemma lstrip_hd (s : str) (c : ascii) :
  hd_error (lstrip s) = Some c -> isspace c = false.
Proof.
  induction s as [|a s IH]; simpl; [discriminate|].
  destruct (isspace a) eqn:Ea; [exact IH|].
  simpl. now intros [= <-].
Qed.

Lemma lstrip_snoc (s : str) (c : ascii) :
  isspace c = false -> exists x, lstrip (s ++ [c]) = x ++ [c].
Proof.
  intros Hc. induction s as [|a s [x IH]]; simpl.
  - rewrite Hc. now exists [].
  - destruct (isspace a).
    + now exists x.
    + now exists (a :: s).
Qed.

Lemma strip_trimmed (s : str) : trimmed (strip s).
Proof.
  unfold trimmed, strip, rstrip. split; intros c.
  - destruct (lstrip s) as [|a t] eqn:Et; [discriminate|].
    assert (Ha : isspace a = false) by (apply (lstrip_hd s); now rewrite Et).
    simpl rev. destruct (lstrip_snoc (rev t) a Ha) as [x ->].
    rewrite rev_app_distr. simpl. now intros [= <-].
  - rewrite rev_involutive. apply lstrip_hd.
Qed.

(** X5. The descriptions of the records of mode A and of mode B have no
    white space at either end, the line break of the line included; and
    an error code of mode B does not start with white space. *)
Theorem log_descriptions_are_trimmed :
  forall (w : World) (log_path : str) (recs : list dict),
    fst (analyze_user_log log_path w) = Ret recs
    \/ fst (analyze_system_logs log_path w) = Ret recs ->
    Forall (fun d =>
              (exists s, dict_get (lit "description") d = Some (PStr s) /\ trimmed s)
              /\ (forall code c,
                    dict_get (lit "error_code") d = Some (PStr code) ->
                    hd_error code = Some c -> isspace c = false))
           recs.
Proof.
  intros w log_path recs [H|H].
  - unfold analyze_user_log, bind, os_path_exists, open_read, raise in H.
    cbv beta in H. destruct (file_content w log_path) as [content|] eqn:Hfile;
      [|discriminate].
    cbv beta iota delta [negb] in H. rewrite Hfile in H.
    rewrite user_log_loop_spec in H. injection H as <-. simpl app.
    generalize (now_calls w). induction (filter has_trigger (readlines content))
      as [|line rest IH]; intros n; simpl; constructor; [|apply IH].
    split.
    + exists (strip line). split; [reflexivity|apply strip_trimmed].
    + intros code c Hcode. discriminate.
  - unfold analyze_system_logs, bind, open_read, lift in H. cbv beta in H.
    destruct (file_content w log_path) as [content|]; [|discriminate].
    cbv beta iota in H. unfold fst in H. rewrite system_log_loop_closed in H.
    destruct (forallb mode_B_can_cut (readlines content)); [|discriminate].
    injection H as <-. simpl app. apply Forall_forall. intros d Hd.
    apply in_map_iff in Hd as [line [<- _]]. split.
    + exists (strip line). split; [reflexivity|apply strip_trimmed].
    + intros code c Hcode Hc. injection Hcode as <-.
      unfold code_between_ERRORs, slice_to in Hc.
      apply (proj1 (strip_trimmed (text_before ERROR (text_after ERROR line)))).
      destruct (strip (text_before ERROR (text_after ERROR line))); [discriminate|].
      exact Hc.
Qed.

Lemma log_descriptions_on_sample_log :
  (fst (analyze_user_log (lit "user_log.txt") sample_world) = Ret sample_issues_now
   \/ fst (analyze_system_logs (lit "user_log.txt") sample_world) = Ret sample_issues_now)
  /\ Forall (fun d =>
               (exists s, dict_get (lit "description") d = Some (PStr s) /\ trimmed s)
               /\ (forall code c,
                     dict_get (lit "error_code") d = Some (PStr code) ->
                     hd_error code = Some c -> isspace c = false))
            sample_issues_now.
Proof.
  assert (H : fst (analyze_user_log (lit "user_log.txt") sample_world)
              = Ret sample_issues_now
              \/ fst (analyze_system_logs (lit "user_log.txt") sample_world)
                 = Ret sample_issues_now)
    by (left; vm_compute; reflexivity).
  split; [exact H|].
  exact (log_descriptions_are_trimmed sample_world (lit "user_log.txt")
           sample_issues_now H).
Defined.

(** ** The event extractor as a whole *)

Lemma event_loop_closed (events : list Element) :
  forall anomalies,
    event_loop events anomalies
    = if forallb can_scan events
      then Ret (anomalies ++ map anomaly_of (filter qualifies events))
      else Raise AttributeError.
Proof.
  induction events as [|event rest IH]; intros anomalies.
  - simpl. now rewrite app_nil_r.
  - rewrite event_loop_cons. cbn [filter forallb]. unfold can_scan at 1.
    destruct (find_path (lit "EventData") (lit "Data") event) as [desc|] eqn:Hd.
    2:{ rewrite (qualifies_without_data event Hd). apply IH. }
    destruct (text desc) as [t|] eqn:Ht; [|reflexivity].
    rewrite (qualifies_with_data event desc t Hd Ht).
    destruct (contains_ignoring_case (lit "crash") t); [|apply IH].
    destruct (find_path (lit "System") (lit "EventID") event) as [id|] eqn:Hid;
      [|reflexivity].
    simpl is_some. cbn [andb]. rewrite IH.
    destruct (forallb can_scan rest); [|reflexivity].
    cbn [map]. rewrite (anomaly_of_event event desc id t Hd Ht Hid).
    now rewrite <- app_assoc.
Qed.

(** X6. On an existing file the event extractor leaves the world as it
    was and ends in one of three ways: with the error of the parser;
    with [AttributeError] and no record at all, when some [Event] below
    the root has an empty data field or is crash-flagged without an
    identifier field; and otherwise with the records of the qualifying
    events, in document order. *)
Theorem parse_event_logs_outcomes :
  forall (w : World) (xml_path content : str),
    file_content w xml_path = Some content ->
    parse_event_logs xml_path w
    = (match ET_parse w content with
       | Raise e => Raise e
       | Ret root =>
           let events := findall_descendants (lit "Event") root in
           if forallb can_scan events
           then Ret (map anomaly_of (filter qualifies events))
           else Raise AttributeError
       end,
       w).
Proof.
  intros w xml_path content Hfile.
  unfold parse_event_logs, bind, os_path_exists, open_read, lift. cbv beta.
  rewrite Hfile. cbv beta iota delta [negb]. rewrite Hfile. cbv beta iota.
  destruct (ET_parse w content) as [root|e]; [|reflexivity].
  cbv beta iota zeta. unfold scan_events. now rewrite event_loop_closed.
Qed.

Lemma parse_event_logs_on_sample_host :
  file_content sample_world (lit "event_log.xml") = Some (lit "<Events>...</Events>")
  /\ parse_event_logs (lit "event_log.xml") sample_world
     = (match ET_parse sample_world (lit "<Events>...</Events>") with
        | Raise e => Raise e
        | Ret root =>
            let events := findall_descendants (lit "Event") root in
            if forallb can_scan events
            then Ret (map anomaly_of (filter qualifies events))
            else Raise AttributeError
        end,
        sample_world).
Proof.
  split; [reflexivity|].
  exact (parse_event_logs_outcomes sample_world (lit "event_log.xml")
           (lit "<Events>...</Events>") eq_refl).
Defined.

Example one_empty_data_field_spoils_the_document :
  scan_events (Elem (lit "Events") None [sample_event; event_with_empty_data])
  = Raise AttributeError.
Proof. vm_compute. reflexivity. Qed.

(** ** What the resource monitor returns and touches *)

(** X7. Whatever the monitor returns holds at most two records, and a
    value it reports is a percentage strictly above 80. *)
Theorem check_resource_usage_reports_high_values_only :
  forall (w : World),
    match fst (check_resource_usage w) with
    | Ret recs =>
        List.length recs <= 2
        /\ Forall (fun d =>
                     match dict_get (lit "value") d with
                     | Some (PFloat q) => (80 < q)%Q
                     | Some _ => False
                     | None => d = top_record
                                     (match subprocess_run w [lit "top"; lit "-bn1"] with
                                      | Ret result => stdout result
                                      | Raise _ => []
                                      end)
                     end)
                  recs
    | Raise _ => True
    end.
Proof.
  intros w.
  assert (Hfallback :
            match fst (top_fallback w) with
            | Ret recs =>
                List.length recs <= 2
                /\ Forall (fun d =>
                             match dict_get (lit "value") d with
                             | Some (PFloat q) => (80 < q)%Q
                             | Some _ => False
                             | None =>
                                 d = top_record
                                       (match subprocess_run w [lit "top"; lit "-bn1"] with
                                        | Ret result => stdout result
                                        | Raise _ => []
                                        end)
                             end)
                          recs
            | Raise _ => True
            end).
  { unfold top_fallback, bind, lift, logging_info, ret. cbv beta.
    destruct (subprocess_run w [lit "top"; lit "-bn1"]) as [result|e]; simpl; [|exact I].
    split; [lia|]. repeat constructor. }
  unfold check_resource_usage, try_except, sample_and_flag, bind, lift, ret. cbv beta.
  destruct (cpu_percent w) as [cpu|e]; cbv beta iota.
  - destruct (virtual_memory_percent w) as [mem|e]; cbv beta iota zeta.
    + unfold fst.
      destruct (above_80 cpu) eqn:Ec, (above_80 mem) eqn:Em; simpl;
        (split; [lia|]); repeat constructor;
        try (apply above_80_spec in Ec); try (apply above_80_spec in Em); assumption.
    + destruct (is_ImportError e); [exact Hfallback|exact I].
  - destruct (is_ImportError e); [exact Hfallback|exact I].
Qed.

(** X8. Mode B, the event extractor and the snapshot collector leave the
    world exactly as it was, whether they return or raise; the resource
    monitor leaves the files and the clock alone and adds to the log at
    most the one message of its fallback. *)
Theorem extractors_leave_the_world :
  forall (w : World) (path : str),
    snd (analyze_system_logs path w) = w
    /\ snd (parse_event_logs path w) = w
    /\ snd (simulate_system_snapshot w) = w
    /\ (snd (check_resource_usage w) = w
        \/ snd (check_resource_usage w)
           = set_log (log w ++ [lit "Fallback to top command output."]) w).
Proof.
  intros w path. repeat split.
  - unfold analyze_system_logs, bind, open_read, lift.
    destruct (file_content w path); reflexivity.
  - unfold parse_event_logs, bind, os_path_exists, open_read, lift, raise. cbv beta.
    destruct (file_content w path) as [content|] eqn:Hfile; [|reflexivity].
    cbv beta iota delta [negb]. rewrite Hfile. cbv beta iota.
    destruct (ET_parse w content); reflexivity.
  - unfold simulate_system_snapshot, try_except, bind, lift, ret. cbv beta.
    destruct (subprocess_run w [lit "ps"; lit "aux"]) as [ps|e]; cbv beta iota zeta.
    + destruct (subprocess_run w [lit "netstat"; lit "-an"]) as [ns|e];
        [reflexivity|]. destruct (is_FileNotFoundError e); reflexivity.
    + destruct (is_FileNotFoundError e); reflexivity.
  - assert (Hfallback :
              snd (top_fallback w) = w
              \/ snd (top_fallback w)
                 = set_log (log w ++ [lit "Fallback to top command output."]) w).
    { unfold top_fallback, bind, lift, logging_info, ret. cbv beta.
      destruct (subprocess_run w [lit "top"; lit "-bn1"]); [right|left]; reflexivity. }
    unfold check_resource_usage, try_except, sample_and_flag, bind, lift, ret. cbv beta.
    destruct (cpu_percent w) as [cpu|e]; cbv beta iota.
    + destruct (virtual_memory_percent w) as [mem|e]; cbv beta iota zeta.
      * now left.
      * destruct (is_ImportError e); [exact Hfallback|now left].
    + destruct (is_ImportError e); [exact Hfallback|now left].
Qed.

(** ** The snapshot collector in all cases *)

(** X9. The snapshot collector never raises [FileNotFoundError], and a
    snapshot it returns is either the one with the single [error] text
    or one with the two texts, each of at most 500 characters. *)
Theorem simulate_system_snapshot_outcomes :
  forall (w : World),
    match fst (simulate_system_snapshot w) with
    | Ret snap =>
        snap = [(lit "error", lit "Commands not available on this system.")]
        \/ exists processes connections,
             snap = [(lit "processes", processes); (lit "connections", connections)]
             /\ List.length processes <= 500
             /\ List.length connections <= 500
    | Raise e => is_FileNotFoundError e = false
    end.
Proof.
  intros w.
  unfold simulate_system_snapshot, try_except, bind, lift, ret. cbv beta.
  destruct (subprocess_run w [lit "ps"; lit "aux"]) as [ps|e]; cbv beta iota zeta.
  - destruct (subprocess_run w [lit "netstat"; lit "-an"]) as [ns|e]; cbv beta iota.
    + right. exists (slice_to 500 (stdout ps)), (slice_to 500 (stdout ns)).
      split; [reflexivity|]. split; apply firstn_le_length.
    + destruct (is_FileNotFoundError e) eqn:E; [now left|exact E].
  - destruct (is_FileNotFoundError e) eqn:E; [now left|exact E].
Qed.

(** X10. When either of the two commands is not found, the collector
    returns the snapshot with the single [error] text; the output of
    [ps] is dropped when it is [netstat] that is missing.  Any other
    error of a command leaves the collector as it is. *)
Theorem simulate_system_snapshot_on_command_error :
  forall (w : World) (e : exn),
    subprocess_run w [lit "ps"; lit "aux"] = Raise e
    \/ (exists ps, subprocess_run w [lit "ps"; lit "aux"] = Ret ps
                   /\ subprocess_run w [lit "netstat"; lit "-an"] = Raise e) ->
    fst (simulate_system_snapshot w)
    = if is_FileNotFoundError e
      then Ret [(lit "error", lit "Commands not available on this system.")]
      else Raise e.
Proof.
  intros w e H.
  unfold simulate_system_snapshot, try_except, bind, lift, ret. cbv beta.
  destruct H as [Hps|[ps [Hps Hns]]]; rewrite Hps; cbv beta iota zeta.
  - destruct (is_FileNotFoundError e); reflexivity.
  - rewrite Hns. cbv beta iota. destruct (is_FileNotFoundError e); reflexivity.
Qed.

Lemma simulate_system_snapshot_without_netstat :
  (subprocess_run host_without_netstat [lit "ps"; lit "aux"]
   = Raise (FileNotFoundError (lit "netstat"))
   \/ (exists ps,
         subprocess_run host_without_netstat [lit "ps"; lit "aux"] = Ret ps
         /\ subprocess_run host_without_netstat [lit "netstat"; lit "-an"]
            = Raise (FileNotFoundError (lit "netstat"))))
  /\ fst (simulate_system_snapshot host_without_netstat)
     = if is_FileNotFoundError (FileNotFoundError (lit "netstat"))
       then Ret [(lit "error", lit "Commands not available on this system.")]
       else Raise (FileNotFoundError (lit "netstat")).
Proof.
  assert (H : subprocess_run host_without_netstat [lit "ps"; lit "aux"]
              = Raise (FileNotFoundError (lit "netstat"))
              \/ (exists ps,
                    subprocess_run host_without_netstat [lit "ps"; lit "aux"] = Ret ps
                    /\ subprocess_run host_without_netstat [lit "netstat"; lit "-an"]
                       = Raise (FileNotFoundError (lit "netstat")))).
  { right. eexists. split; reflexivity. }
  split; [exact H|].
  exact (simulate_system_snapshot_on_command_error host_without_netstat
           (FileNotFoundError (lit "netstat")) H).
Defined.

(** ** The assembler on the records of the extractors *)

Lemma write_md_report_unfold (w : World) (issues errors flags anomalies : list dict)
    (snap : snapshot) (md_output : str) :
  write_fails w md_output = false ->
  write_md_report issues errors flags anomalies snap md_output w
  = bind (write_md_sections issues errors flags anomalies snap md_output)
      (fun _ => logging_info (lit "Markdown report generated at " ++ md_output))
      (md_started md_output w).
Proof.
  intros Hw.
  unfold write_md_report.
  rewrite (bind_step _ _ w (set_files ((md_output, []) :: files w) w) tt)
    by (unfold open_write; now rewrite Hw).
  rewrite (bind_step _ _ _
             (set_files ((md_output, lit "# Remote IT Support Report" ++ [LF; LF])
                         :: files w) w) tt)
    by (unfold file_write; cbn -[lit]; now rewrite str_eqb_refl).
  rewrite (bind_step _ _ _
             (set_now_calls (S (now_calls w))
                (set_files ((md_output, lit "# Remote IT Support Report" ++ [LF; LF])
                            :: files w) w))
             (isoformat_of_call w (now_calls w)))
    by reflexivity.
  rewrite (bind_step _ _ _ (md_started md_output w) tt)
    by (unfold file_write, md_started; cbn -[lit]; now rewrite str_eqb_refl).
  reflexivity.
Qed.

Lemma generate_support_report_unfold (w : World)
    (issues errors flags anomalies : list dict) (snap : snapshot)
    (json_output md_output : str) :
  write_fails w json_output = false ->
  write_fails w md_output = false ->
  generate_support_report issues errors flags anomalies snap json_output md_output w
  = bind (write_md_sections issues errors flags anomalies snap md_output)
      (fun _ => logging_info (lit "Markdown report generated at " ++ md_output))
      (md_started md_output
         (json_written issues errors flags anomalies snap json_output w)).
Proof.
  intros Hj Hm. unfold generate_support_report.
  rewrite (bind_step _ _ _ _ _
             (write_json_report_run w issues errors flags anomalies snap
                json_output Hj)).
  now rewrite write_md_report_unfold.
Qed.

Lemma fst_bind_unit (m : M unit) (k : unit -> M unit) :
  (forall w, fst (m w) = Ret tt) ->
  (forall w, fst (k tt w) = Ret tt) ->
  forall w, fst (bind m k w) = Ret tt.
Proof.
  intros Hm Hk w. unfold bind. specialize (Hm w).
  destruct (m w) as [o w']. simpl in Hm. subst o. apply Hk.
Qed.

Lemma fst_bind_raise {B} (m : M unit) (k : unit -> M B) (e : exn) (w : World) :
  fst (m w) = Raise e -> fst (bind m k w) = Raise e.
Proof.
  intros Hm. unfold bind. destruct (m w) as [o w']. simpl in Hm. now subst o.
Qed.

Lemma fst_bind_then {B} (m : M unit) (k : unit -> M B) (o : outcome B) :
  (forall w, fst (m w) = Ret tt) ->
  (forall w, fst (k tt w) = o) ->
  forall w, fst (bind m k w) = o.
Proof.
  intros Hm Hk w. unfold bind. specialize (Hm w).
  destruct (m w) as [o' w']. simpl in Hm. subst o'. apply Hk.
Qed.

Lemma bullet_returns (path label k1 sep k2 : str) (d : dict) :
  lacks_key k1 k2 d = false ->
  forall w, fst (bullet path label k1 sep k2 d w) = Ret tt.
Proof.
  unfold lacks_key, dict_has. intros H w. unfold bullet, dict_item.
  destruct (dict_get k1 d); [|discriminate].
  destruct (dict_get k2 d); [|discriminate]. reflexivity.
Qed.

Lemma bullet_raises (path label k1 sep k2 : str) (d : dict) :
  lacks_key k1 k2 d = true ->
  exists k, (k = k1 \/ k = k2)
            /\ forall w, fst (bullet path label k1 sep k2 d w) = Raise (KeyError k).
Proof.
  unfold lacks_key, dict_has. intros H. unfold bullet, dict_item.
  destruct (dict_get k1 d).
  - destruct (dict_get k2 d); [discriminate|]. exists k2. split; [now right|reflexivity].
  - exists k1. split; [now left|reflexivity].
Qed.

Lemma flag_bullet_returns (path : str) (d : dict) :
  dict_has (lit "issue") d = true ->
  forall w, fst (flag_bullet path d w) = Ret tt.
Proof.
  unfold dict_has. intros H w. unfold flag_bullet, dict_item.
  destruct (dict_get (lit "issue") d); [reflexivity|discriminate].
Qed.

Lemma for_each_returns {A} (l : list A) (body : A -> M unit) :
  Forall (fun x => forall w, fst (body x w) = Ret tt) l ->
  forall w, fst (for_each l body w) = Ret tt.
Proof.
  induction 1 as [|x l Hx _ IH]; simpl; [reflexivity|].
  apply fst_bind_unit; [exact Hx|exact IH].
Qed.

Lemma bullets_raise (path label k1 sep k2 : str) (l : list dict) :
  existsb (lacks_key k1 k2) l = true ->
  exists k, (k = k1 \/ k = k2)
            /\ forall w,
                 fst (for_each l (bullet path label k1 sep k2) w) = Raise (KeyError k).
Proof.
  induction l as [|d l IH]; simpl; [discriminate|].
  destruct (lacks_key k1 k2 d) eqn:Ed; simpl.
  - intros _. destruct (bullet_raises path label k1 sep k2 d Ed) as [k [Hk Hr]].
    exists k. split; [exact Hk|]. intros w. now apply fst_bind_raise.
  - intros H. destruct (IH H) as [k [Hk Hr]]. exists k. split; [exact Hk|].
    apply fst_bind_then; [now apply bullet_returns|exact Hr].
Qed.

Lemma write_md_sections_returns (issues errors flags anomalies : list dict)
    (snap : snapshot) (md_output : str) :
  existsb (lacks_key (lit "issue_type") (lit "description")) issues = false ->
  existsb (lacks_key (lit "error_code") (lit "description")) errors = false ->
  forallb (dict_has (lit "issue")) flags = true ->
  existsb (lacks_key (lit "event_id") (lit "description")) anomalies = false ->
  forall w,
    fst (write_md_sections issues errors flags anomalies snap md_output w) = Ret tt.
Proof.
  intros Hi He Hf Ha. unfold write_md_sections.
  assert (Hbullets : forall label k1 sep k2 l,
             existsb (lacks_key k1 k2) l = false ->
             forall w, fst (for_each l (bullet md_output label k1 sep k2) w) = Ret tt).
  { intros label k1 sep k2 l H. apply for_each_returns, Forall_forall.
    intros d Hd. apply bullet_returns.
    destruct (lacks_key k1 k2 d) eqn:E; [|reflexivity].
    assert (existsb (lacks_key k1 k2) l = true)
      by (apply existsb_exists; eauto). congruence. }
  repeat (apply fst_bind_unit; [|intros ?]);
    try reflexivity; try (now apply Hbullets).
  apply for_each_returns, Forall_forall. intros d Hd.
  apply flag_bullet_returns. rewrite forallb_forall in Hf. now apply Hf.
Qed.

Lemma user_log_loop_keys (clock : nat -> str) (lines : list str) :
  forall n,
    existsb (lacks_key (lit "issue_type") (lit "description")) (stamped clock n lines)
    = false.
Proof. induction lines as [|line rest IH]; intros n; simpl; [reflexivity|apply IH]. Qed.

Lemma analyze_user_log_keys (w : World) (path : str) (issues : list dict) :
  fst (analyze_user_log path w) = Ret issues ->
  existsb (lacks_key (lit "issue_type") (lit "description")) issues = false.
Proof.
  unfold analyze_user_log, bind, os_path_exists, open_read, raise. cbv beta.
  destruct (file_content w path) as [content|] eqn:Hfile; [|discriminate].
  cbv beta iota delta [negb]. rewrite Hfile. rewrite user_log_loop_spec.
  intros [= <-]. apply user_log_loop_keys.
Qed.

Lemma analyze_system_logs_keys (w : World) (path : str) (errors : list dict) :
  fst (analyze_system_logs path w) = Ret errors ->
  existsb (lacks_key (lit "error_code") (lit "description")) errors = false.
Proof.
  unfold analyze_system_logs, bind, open_read, lift. cbv beta.
  destruct (file_content w path) as [content|]; [|discriminate].
  cbv beta iota. unfold fst. rewrite system_log_loop_closed.
  destruct (forallb mode_B_can_cut (readlines content)); [|discriminate].
  intros [= <-]. simpl app.
  induction (filter (str_contains ERROR) (readlines content)); simpl; auto.
Qed.

Lemma parse_event_logs_keys (w : World) (path : str) (anomalies : list dict) :
  fst (parse_event_logs path w) = Ret anomalies ->
  existsb (lacks_key (lit "event_id") (lit "description")) anomalies = false.
Proof.
  unfold parse_event_logs, bind, os_path_exists, open_read, lift, raise. cbv beta.
  destruct (file_content w path) as [content|] eqn:Hfile; [|discriminate].
  cbv beta iota delta [negb]. rewrite Hfile. cbv beta iota.
  destruct (ET_parse w content) as [root|e]; [|discriminate].
  cbv beta iota. unfold fst, scan_events. rewrite event_loop_closed.
  destruct (forallb can_scan (findall_descendants (lit "Event") root)); [|discriminate].
  intros [= <-]. simpl app.
  induction (filter qualifies (findall_descendants (lit "Event") root)) as [|ev l IH];
    [reflexivity|].
  simpl. unfold anomaly_of at 1, crash_anomaly, lacks_key, dict_has. simpl.
  exact IH.
Qed.

Lemma check_resource_usage_keys (w : World) (flags : list dict) :
  fst (check_resource_usage w) = Ret flags ->
  forallb (dict_has (lit "issue")) flags = true.
Proof.
  assert (Hfallback : fst (top_fallback w) = Ret flags ->
                      forallb (dict_has (lit "issue")) flags = true).
  { unfold top_fallback, bind, lift, logging_info, ret. cbv beta.
    destruct (subprocess_run w [lit "top"; lit "-bn1"]); simpl; [|discriminate].
    now intros [= <-]. }
  unfold check_resource_usage, try_except, sample_and_flag, bind, lift, ret. cbv beta.
  destruct (cpu_percent w) as [cpu|e]; cbv beta iota.
  - destruct (virtual_memory_percent w) as [mem|e]; cbv beta iota zeta.
    + unfold fst. intros [= <-].
      destruct (above_80 cpu), (above_80 mem); reflexivity.
    + destruct (is_ImportError e); [exact Hfallback|discriminate].
  - destruct (is_ImportError e); [exact Hfallback|discriminate].
Qed.

(** X11. The assembler never fails on what the extractors return: for
    records returned by mode A, mode B, the resource monitor (its
    fallback record included) and the event extractor, and any
    snapshot, it returns normally whenever the two files can be
    opened. *)
Theorem generate_support_report_accepts_extractor_output :
  forall (wa wb wc wd w : World) (pa pb pd : str)
         (issues errors flags anomalies : list dict) (snap : snapshot)
         (json_output md_output : str),
    fst (analyze_user_log pa wa) = Ret issues ->
    fst (analyze_system_logs pb wb) = Ret errors ->
    fst (check_resource_usage wc) = Ret flags ->
    fst (parse_event_logs pd wd) = Ret anomalies ->
    write_fails w json_output = false ->
    write_fails w md_output = false ->
    fst (generate_support_report issues errors flags anomalies snap
           json_output md_output w)
    = Ret tt.
Proof.
  intros wa wb wc wd w pa pb pd issues errors flags anomalies snap json_output
         md_output Hi He Hf Ha Hj Hm.
  rewrite generate_support_report_unfold by assumption.
  apply fst_bind_unit; [|reflexivity].
  apply write_md_sections_returns.
  - exact (analyze_user_log_keys wa pa issues Hi).
  - exact (analyze_system_logs_keys wb pb errors He).
  - exact (check_resource_usage_keys wc flags Hf).
  - exact (parse_event_logs_keys wd pd anomalies Ha).
Qed.

Lemma generate_support_report_accepts_sample_records :
  (fst (analyze_user_log (lit "user_log.txt") sample_world) = Ret sample_issues_now
   /\ fst (analyze_system_logs (lit "system_log.txt") sample_world) = Ret sample_errors
   /\ fst (check_resource_usage sample_world) = Ret sample_flags
   /\ fst (parse_event_logs (lit "event_log.xml") sample_world) = Ret sample_anomalies
   /\ write_fails sample_world (lit "support_report.json") = false
   /\ write_fails sample_world (lit "support_report.md") = false)
  /\ fst (generate_support_report sample_issues_now sample_errors sample_flags
            sample_anomalies sample_snapshot
            (lit "support_report.json") (lit "support_report.md") sample_world)
     = Ret tt.
Proof.
  assert (Hi : fst (analyze_user_log (lit "user_log.txt") sample_world)
               = Ret sample_issues_now) by (vm_compute; reflexivity).
  assert (He : fst (analyze_system_logs (lit "system_log.txt") sample_world)
               = Ret sample_errors) by (vm_compute; reflexivity).
  assert (Hf : fst (check_resource_usage sample_world) = Ret sample_flags)
    by (vm_compute; reflexivity).
  assert (Ha : fst (parse_event_logs (lit "event_log.xml") sample_world)
               = Ret sample_anomalies) by (vm_compute; reflexivity).
  split; [repeat split; assumption|].
  exact (generate_support_report_accepts_extractor_output
           sample_world sample_world sample_world sample_world sample_world
           (lit "user_log.txt") (lit "system_log.txt") (lit "event_log.xml")
           sample_issues_now sample_errors sample_flags sample_anomalies
           sample_snapshot (lit "support_report.json") (lit "support_report.md")
           Hi He Hf Ha eq_refl eq_refl).
Defined.

(** ** The files the assembler leaves *)

(** The files after a run in which both files could be opened: the
    narrative report, as far as it was written, above the structured
    report, above the files there were. *)
Lemma generate_support_report_files (issues errors flags anomalies : list dict)
    (snap : snapshot) (json_output md_output : str) (w : World) :
  write_fails w json_output = false ->
  write_fails w md_output = false ->
  exists sections,
    files (snd (generate_support_report issues errors flags anomalies snap
                  json_output md_output w))
    = (md_output,
       ((lit "# Remote IT Support Report" ++ [LF; LF])
        ++ (lit "## Timestamp: "
            ++ isoformat_of_call w (S (now_calls w)) ++ [LF; LF]))
       ++ sections)
      :: (json_output,
          json_encode (float_repr w) 0
            (report issues errors flags anomalies snap
               (isoformat_of_call w (now_calls w))))
      :: files w.
Proof.
  intros Hj Hm. rewrite generate_support_report_unfold by assumption.
  assert (Happ : appends md_output
                   (bind (write_md_sections issues errors flags anomalies snap md_output)
                      (fun _ => logging_info
                                  (lit "Markdown report generated at " ++ md_output)))).
  { apply appends_bind; [apply appends_write_md_sections|].
    intros _. apply appends_logging_info. }
  destruct (Happ (float_repr w)) as [sections [o H]].
  exists sections.
  match goal with
  | |- files (snd (?m ?w1)) = (_, ?c ++ _) :: ?rest =>
      destruct (H w1 c rest eq_refl eq_refl) as [_ [Hf _]]
  end.
  exact Hf.
Qed.

(** X12. A record of the first sequence that lacks [issue_type] or
    [description] makes the assembler raise [KeyError] for that key in
    the middle of the narrative report: the structured report is then
    complete on disk and the narrative report is cut short after its
    title and timestamp. *)
Theorem generate_support_report_on_missing_key :
  forall (issues errors flags anomalies : list dict) (snap : snapshot)
         (json_output md_output : str) (w : World),
    existsb (lacks_key (lit "issue_type") (lit "description")) issues = true ->
    json_output <> md_output ->
    write_fails w json_output = false ->
    write_fails w md_output = false ->
    let run := generate_support_report issues errors flags anomalies snap
                 json_output md_output w in
    exists k,
      (k = lit "issue_type" \/ k = lit "description")
      /\ fst run = Raise (KeyError k)
      /\ file_content (snd run) json_output
         = Some (json_encode (float_repr w) 0
                   (report issues errors flags anomalies snap
                      (isoformat_of_call w (now_calls w))))
      /\ exists written,
           file_content (snd run) md_output
           = Some ((lit "# Remote IT Support Report" ++ [LF; LF]) ++ written).
Proof.
  intros issues errors flags anomalies snap json_output md_output w
         Hbad Hpaths Hj Hm run.
  destruct (bullets_raise md_output (lit "Type") (lit "issue_type") (lit " - ")
              (lit "description") issues Hbad) as [k [Hk Hraise]].
  exists k. split; [exact Hk|]. subst run. split; [|split].
  - rewrite generate_support_report_unfold by assumption.
    apply fst_bind_raise. unfold write_md_sections.
    apply fst_bind_then; [reflexivity|]. intros w'.
    now apply fst_bind_raise.
  - destruct (generate_support_report_files issues errors flags anomalies snap
                json_output md_output w Hj Hm) as [sections Hf].
    unfold file_content. rewrite Hf. cbn -[lit json_encode report].
    rewrite (str_eqb_neq md_output json_output) by congruence.
    now rewrite str_eqb_refl.
  - destruct (generate_support_report_files issues errors flags anomalies snap
                json_output md_output w Hj Hm) as [sections Hf].
    eexists. unfold file_content. rewrite Hf. cbn -[lit json_encode report].
    rewrite str_eqb_refl. now rewrite <- !app_assoc.
Qed.

Lemma generate_support_report_on_system_errors :
  let run := generate_support_report sample_errors [] [] [] sample_snapshot
               (lit "support_report.json") (lit "support_report.md") sample_world in
  (existsb (lacks_key (lit "issue_type") (lit "description")) sample_errors = true
   /\ lit "support_report.json" <> lit "support_report.md"
   /\ write_fails sample_world (lit "support_report.json") = false
   /\ write_fails sample_world (lit "support_report.md") = false)
  /\ exists k,
      (k = lit "issue_type" \/ k = lit "description")
      /\ fst run = Raise (KeyError k)
      /\ file_content (snd run) (lit "support_report.json")
         = Some (json_encode (float_repr sample_world) 0
                   (report sample_errors [] [] [] sample_snapshot
                      (isoformat_of_call sample_world (now_calls sample_world))))
      /\ exists written,
           file_content (snd run) (lit "support_report.md")
           = Some ((lit "# Remote IT Support Report" ++ [LF; LF]) ++ written).
Proof.
  intros run.
  assert (Hpaths : lit "support_report.json" <> lit "support_report.md")
    by (vm_compute; discriminate).
  split; [repeat split; solve [exact Hpaths|reflexivity]|].
  exact (generate_support_report_on_missing_key sample_errors [] [] []
           sample_snapshot (lit "support_report.json") (lit "support_report.md")
           sample_world eq_refl Hpaths eq_refl eq_refl).
Defined.

(** X13. When the same path is given for both outputs, the file holds
    the narrative report in the end: the structured report, written
    first, is lost when the file is opened again. *)
Theorem generate_support_report_same_path :
  forall (issues errors flags anomalies : list dict) (snap : snapshot)
         (output : str) (w : World),
    write_fails w output = false ->
    exists written,
      file_content
        (snd (generate_support_report issues errors flags anomalies snap
                output output w))
        output
      = Some ((lit "# Remote IT Support Report" ++ [LF; LF]) ++ written).
Proof.
  intros issues errors flags anomalies snap output w Hw.
  destruct (generate_support_report_files issues errors flags anomalies snap
              output output w Hw Hw) as [sections Hf].
  eexists. unfold file_content. rewrite Hf. cbn -[lit json_encode report].
  rewrite str_eqb_refl. now rewrite <- !app_assoc.
Qed.

Lemma same_path_on_sample_host :
  write_fails sample_world (lit "report.out") = false
  /\ exists written,
      file_content
        (snd (generate_support_report sample_issues [] [] [] sample_snapshot
                (lit "report.out") (lit "report.out") sample_world))
        (lit "report.out")
      = Some ((lit "# Remote IT Support Report" ++ [LF; LF]) ++ written).
Proof.
  split; [reflexivity|].
  exact (generate_support_report_same_path sample_issues [] [] [] sample_snapshot
           (lit "report.out") sample_world eq_refl).
Defined.

(** X14. With four empty sequences the narrative report still has its
    five headings, each section empty, and the two blocks of the
    snapshot; a snapshot without the two texts gives two empty
    blocks. *)
Theorem empty_sequences_give_empty_sections :
  forall (snap : snapshot) (json_output md_output : str) (w : World),
    write_fails w json_output = false ->
    write_fails w md_output = false ->
    let run := generate_support_report [] [] [] [] snap json_output md_output w in
    fst run = Ret tt
    /\ file_content (snd run) md_output
       = Some (lit "# Remote IT Support Report" ++ [LF; LF]
               ++ lit "## Timestamp: " ++ isoformat_of_call w (S (now_calls w))
               ++ [LF; LF]
               ++ lit "## User Issues" ++ [LF]
               ++ [LF] ++ lit "## System Errors" ++ [LF]
               ++ [LF] ++ lit "## Resource Flags" ++ [LF]
               ++ [LF] ++ lit "## Detected Anomalies" ++ [LF]
               ++ [LF] ++ lit "## System Snapshot" ++ [LF]
               ++ lit "### Processes" ++ [LF] ++ FENCE ++ [LF]
               ++ snapshot_get (lit "processes") snap [] ++ [LF] ++ FENCE ++ [LF]
               ++ lit "### Connections" ++ [LF] ++ FENCE ++ [LF]
               ++ snapshot_get (lit "connections") snap [] ++ [LF] ++ FENCE ++ [LF]).
Proof.
  intros snap json_output md_output w Hj Hm run. subst run.
  rewrite generate_support_report_unfold by assumption.
  unfold write_md_sections, bind, for_each, ret, file_write, logging_info,
    md_started, json_written, file_content.
  repeat (progress (cbn -[lit json_encode report snapshot_get FENCE];
                    rewrite ?str_eqb_refl)).
  split; [reflexivity|].
  f_equal. repeat (progress (rewrite <- ?app_assoc; cbn [app])). reflexivity.
Qed.

Lemma empty_sequences_on_sample_host :
  let run := generate_support_report [] [] [] []
               [(lit "error", lit "Commands not available on this system.")]
               (lit "support_report.json") (lit "support_report.md") sample_world in
  (write_fails sample_world (lit "support_report.json") = false
   /\ write_fails sample_world (lit "support_report.md") = false)
  /\ fst run = Ret tt
  /\ file_content (snd run) (lit "support_report.md")
     = Some (lit "# Remote IT Support Report" ++ [LF; LF]
             ++ lit "## Timestamp: "
             ++ isoformat_of_call sample_world (S (now_calls sample_world))
             ++ [LF; LF]
             ++ lit "## User Issues" ++ [LF]
             ++ [LF] ++ lit "## System Errors" ++ [LF]
             ++ [LF] ++ lit "## Resource Flags" ++ [LF]
             ++ [LF] ++ lit "## Detected Anomalies" ++ [LF]
             ++ [LF] ++ lit "## System Snapshot" ++ [LF]
             ++ lit "### Processes" ++ [LF] ++ FENCE ++ [LF]
             ++ snapshot_get (lit "processes")
                  [(lit "error", lit "Commands not available on this system.")] []
             ++ [LF] ++ FENCE ++ [LF]
             ++ lit "### Connections" ++ [LF] ++ FENCE ++ [LF]
             ++ snapshot_get (lit "connections")
                  [(lit "error", lit "Commands not available on this system.")] []
             ++ [LF] ++ FENCE ++ [LF]).
Proof.
  intros run. split; [split; reflexivity|].
  exact (empty_sequences_give_empty_sections
           [(lit "error", lit "Commands not available on this system.")]
           (lit "support_report.json") (lit "support_report.md") sample_world
           eq_refl eq_refl).
Defined.

(** ** The example run *)

Lemma bind_ret_inv {A B} (m : M A) (k : A -> M B) (w : World) (b : B) :
  fst (bind m k w) = Ret b ->
  exists a w', m w = (Ret a, w') /\ bind m k w = k a w'.
Proof.
  unfold bind. destruct (m w) as [[a|e] w']; [eauto|discriminate].
Qed.

Lemma generate_support_report_returns_inv (issues errors flags anomalies : list dict)
    (snap : snapshot) (json_output md_output : str) (w : World) :
  fst (generate_support_report issues errors flags anomalies snap
         json_output md_output w) = Ret tt ->
  write_fails w json_output = false /\ write_fails w md_output = false.
Proof.
  unfold generate_support_report.
  destruct (write_fails w json_output) eqn:Hj.
  - rewrite (bind_raise _ _ _ _ _
               (write_json_report_locked w issues errors flags anomalies snap
                  json_output Hj)).
    discriminate.
  - rewrite (bind_step _ _ _ _ _
               (write_json_report_run w issues errors flags anomalies snap
                  json_output Hj)).
    destruct (write_fails w md_output) eqn:Hm; [|auto].
    rewrite write_md_report_locked by exact Hm. discriminate.
Qed.

(** X15. When the example run returns normally, both reports are on
    disk under their default names, and the narrative report starts
    with its title. *)
Theorem main_leaves_both_reports :
  forall (w : World),
    fst (main w) = Ret tt ->
    (exists json_text,
       file_content (snd (main w)) (lit "support_report.json") = Some json_text)
    /\ (exists written,
          file_content (snd (main w)) (lit "support_report.md")
          = Some ((lit "# Remote IT Support Report" ++ [LF; LF]) ++ written)).
Proof.
  intros w H. unfold main in *.
  repeat match type of H with
         | fst (bind ?m ?k ?w0) = Ret tt =>
             let a := fresh "a" in
             let w' := fresh "w" in
             let E := fresh "E" in
             let R := fresh "R" in
             destruct (bind_ret_inv m k w0 tt H) as [a [w' [E R]]];
             rewrite R in H |- *; clear R E
         end.
  destruct (generate_support_report_returns_inv _ _ _ _ _ _ _ _ H) as [Hj Hm].
  match goal with
  | |- context [generate_support_report ?i ?e ?f ?a ?s ?j ?m ?w0] =>
      destruct (generate_support_report_files i e f a s j m w0 Hj Hm)
        as [sections Hf]
  end.
  unfold file_content. rewrite Hf. cbn -[lit json_encode report]. split.
  - eexists. reflexivity.
  - eexists. now rewrite <- !app_assoc.
Qed.

Lemma main_on_sample_host :
  fst (main sample_world) = Ret tt
  /\ (exists json_text,
        file_content (snd (main sample_world)) (lit "support_report.json")
        = Some json_text)
  /\ (exists written,
        file_content (snd (main sample_world)) (lit "support_report.md")
        = Some ((lit "# Remote IT Support Report" ++ [LF; LF]) ++ written)).
Proof.
  assert (H : fst (main sample_world) = Ret tt) by (vm_compute; reflexivity).
  split; [exact H|].
  exact (main_leaves_both_reports sample_world H).
Defined.

Lemma file_content_files (w w' : World) (path : str) :
  files w' = files w -> file_content w' path = file_content w path.
Proof. unfold file_content. now intros ->. Qed.

Lemma analyze_user_log_files (w : World) (path : str) :
  files (snd (analyze_user_log path w)) = files w.
Proof.
  unfold analyze_user_log, bind, os_path_exists, open_read, raise. cbv beta.
  destruct (file_content w path) as [content|] eqn:Hfile; [|reflexivity].
  cbv beta iota delta [negb]. rewrite Hfile.
  apply (user_log_loop_effects (readlines content) [] w).
Qed.

Lemma analyze_system_logs_state (w : World) (path : str) :
  snd (analyze_system_logs path w) = w.
Proof.
  unfold analyze_system_logs, bind, open_read, lift.
  destruct (file_content w path); reflexivity.
Qed.

Lemma parse_event_logs_state (w : World) (path : str) :
  snd (parse_event_logs path w) = w.
Proof.
  unfold parse_event_logs, bind, os_path_exists, open_read, lift, raise. cbv beta.
  destruct (file_content w path) as [content|] eqn:Hfile; [|reflexivity].
  cbv beta iota delta [negb]. rewrite Hfile. cbv beta iota.
  destruct (ET_parse w content); reflexivity.
Qed.

Lemma check_resource_usage_files (w : World) :
  files (snd (check_resource_usage w)) = files w.
Proof.
  assert (Hfallback : files (snd (top_fallback w)) = files w).
  { unfold top_fallback, bind, lift, logging_info, ret. cbv beta.
    destruct (subprocess_run w [lit "top"; lit "-bn1"]); reflexivity. }
  unfold check_resource_usage, try_except, sample_and_flag, bind, lift, ret. cbv beta.
  destruct (cpu_percent w) as [cpu|e]; cbv beta iota.
  - destruct (virtual_memory_percent w) as [mem|e]; cbv beta iota zeta; [reflexivity|].
    destruct (is_ImportError e); [exact Hfallback|reflexivity].
  - destruct (is_ImportError e); [exact Hfallback|reflexivity].
Qed.

Lemma bind_stops {A B} (m : M A) (k : A -> M B) (w : World) (fs : list (str * str)) :
  files (snd (m w)) = fs ->
  (exists e, fst (m w) = Raise e)
  \/ (forall a, fst (m w) = Ret a ->
                (exists e, fst (k a (snd (m w))) = Raise e)
                /\ files (snd (k a (snd (m w)))) = fs) ->
  (exists e, fst (bind m k w) = Raise e) /\ files (snd (bind m k w)) = fs.
Proof.
  unfold bind. destruct (m w) as [[a|e] w']; simpl; intros Hf [[e' He]|Hk].
  - discriminate.
  - now apply Hk.
  - eauto.
  - eauto.
Qed.

Lemma missing_file_raises (w : World) (path : str) :
  file_content w path = None ->
  (exists e, fst (analyze_user_log path w) = Raise e)
  /\ (exists e, fst (analyze_system_logs path w) = Raise e)
  /\ (exists e, fst (parse_event_logs path w) = Raise e).
Proof.
  intros Hnone. repeat split; eexists.
  - unfold analyze_user_log, bind, os_path_exists. rewrite Hnone. reflexivity.
  - unfold analyze_system_logs, bind, open_read. rewrite Hnone. reflexivity.
  - unfold parse_event_logs, bind, os_path_exists. rewrite Hnone. reflexivity.
Qed.

(** X16. When one of the three input files of the example run is
    missing, the run raises and no file is written or changed: the
    extractors that ran before the failure leave the files alone, and
    the assembler is not reached. *)
Theorem main_without_an_input_file :
  forall (w : World),
    file_content w (lit "user_log.txt") = None
    \/ file_content w (lit "system_log.txt") = None
    \/ file_content w (lit "event_log.xml") = None ->
    (exists e, fst (main w) = Raise e) /\ files (snd (main w)) = files w.
Proof.
  intros w Hmissing. unfold main.
  apply bind_stops.
  { unfold import_toolkit. destruct (psutil_installed w); reflexivity. }
  right. intros _ _.
  assert (E0 : snd (import_toolkit w) = w)
    by (unfold import_toolkit; destruct (psutil_installed w); reflexivity).
  rewrite E0. clear E0.
  apply bind_stops; [apply analyze_user_log_files|].
  destruct Hmissing as [Hu|Hmissing].
  { left. apply (missing_file_raises w _ Hu). }
  right. intros user_issues _.
  pose proof (analyze_user_log_files w (lit "user_log.txt")) as F1.
  set (w1 := snd (analyze_user_log (lit "user_log.txt") w)) in *.
  apply bind_stops; [now rewrite analyze_system_logs_state|].
  destruct Hmissing as [Hs|He].
  { left. apply (missing_file_raises w1). now rewrite (file_content_files w w1). }
  right. intros system_errors _. rewrite analyze_system_logs_state.
  apply bind_stops; [now rewrite check_resource_usage_files|].
  right. intros resource_flags _.
  pose proof (check_resource_usage_files w1) as F2.
  set (w2 := snd (check_resource_usage w1)) in *.
  apply bind_stops; [rewrite parse_event_logs_state; congruence|].
  left. apply (missing_file_raises w2).
  rewrite (file_content_files w w2) by congruence. exact He.
Qed.

Lemma main_on_host_without_files :
  (file_content host_without_files (lit "user_log.txt") = None
   \/ file_content host_without_files (lit "system_log.txt") = None
   \/ file_content host_without_files (lit "event_log.xml") = None)
  /\ (exists e, fst (main host_without_files) = Raise e)
  /\ files (snd (main host_without_files)) = files host_without_files.
Proof.
  assert (H : file_content host_without_files (lit "user_log.txt") = None
              \/ file_content host_without_files (lit "system_log.txt") = None
              \/ file_content host_without_files (lit "event_log.xml") = None)
    by (left; reflexivity).
  split; [exact H|].
  exact (main_without_an_input_file host_without_files H).
Defined.

(** ** The characters of the structured report *)

Lemma json_escape_char_plain (c : ascii) :
  forallb plain_ascii (json_escape_char c) = true.
Proof. destruct c as [[] [] [] [] [] [] [] []]; reflexivity. Qed.

Lemma forallb_flat_map {A B} (p : B -> bool) (f : A -> list B) (l : list A) :
  (forall x, In x l -> forallb p (f x) = true) ->
  forallb p (flat_map f l) = true.
Proof.
  induction l as [|x l IH]; intros H; simpl; [reflexivity|].
  rewrite forallb_app, (H x (or_introl eq_refl)), IH; [reflexivity|].
  intros y Hy. apply H. now right.
Qed.

Lemma json_string_plain (s : str) : forallb plain_ascii (json_string s) = true.
Proof.
  unfold json_string. cbn [forallb]. rewrite forallb_app.
  rewrite forallb_flat_map by (intros c _; apply json_escape_char_plain).
  reflexivity.
Qed.

Lemma newline_indent_plain (level : nat) :
  forallb plain_ascii (newline_indent level) = true.
Proof.
  unfold newline_indent. cbn [forallb]. change (plain_ascii LF) with true.
  induction (4 * level) as [|n IH]; [reflexivity|exact IH].
Qed.

Lemma join_plain (sep : str) (parts : list str) :
  forallb plain_ascii sep = true ->
  Forall (fun p => forallb plain_ascii p = true) parts ->
  forallb plain_ascii (join sep parts) = true.
Proof.
  intros Hsep Hparts. destruct Hparts as [|p parts Hp Hparts]; [reflexivity|].
  rewrite join_cons, forallb_app, Hp. unfold join_after.
  apply forallb_flat_map. intros q Hq. rewrite forallb_app, Hsep.
  rewrite Forall_forall in Hparts. now apply Hparts.
Qed.

Lemma json_nested_ind (P : json -> Prop) :
  P JNull ->
  (forall s, P (JStr s)) ->
  (forall q, P (JFloat q)) ->
  (forall items, Forall P items -> P (JList items)) ->
  (forall members, Forall (fun kv => P (snd kv)) members -> P (JDict members)) ->
  forall j, P j.
Proof.
  intros Hnull Hstr Hfloat Hlist Hdict. fix IH 1. intros [| s | q | items | members].
  - exact Hnull.
  - apply Hstr.
  - apply Hfloat.
  - apply Hlist. induction items as [|x items IHi]; constructor; [apply IH|exact IHi].
  - apply Hdict. induction members as [|[k v] members IHm]; constructor;
      [apply IH|exact IHm].
Qed.

Lemma json_encode_list (repr : Q -> str) (level : nat) (items : list json) :
  items <> [] ->
  json_encode repr level (JList items)
  = lit "[" ++ newline_indent (S level)
    ++ join (lit "," ++ newline_indent (S level))
            (map (json_encode repr (S level)) items)
    ++ newline_indent level ++ lit "]".
Proof. destruct items; [congruence|reflexivity]. Qed.

Lemma json_encode_plain (repr : Q -> str) :
  (forall q, forallb plain_ascii (repr q) = true) ->
  forall j level, forallb plain_ascii (json_encode repr level j) = true.
Proof.
  intros Hrepr.
  assert (Hsep : forall level,
             forallb plain_ascii (lit "," ++ newline_indent (S level)) = true).
  { intros level. rewrite forallb_app, newline_indent_plain. reflexivity. }
  induction j as [| s | q | items IH | members IH] using json_nested_ind;
    intros level.
  - reflexivity.
  - apply json_string_plain.
  - apply Hrepr.
  - destruct items as [|x items]; [reflexivity|].
    rewrite json_encode_list by discriminate.
    rewrite !forallb_app, !newline_indent_plain, join_plain; [reflexivity|apply Hsep|].
    apply Forall_map. eapply Forall_impl; [|exact IH]. intros j Hj. apply Hj.
  - destruct members as [|m members]; [reflexivity|].
    rewrite json_encode_dict by discriminate.
    rewrite !forallb_app, !newline_indent_plain, join_plain; [reflexivity|apply Hsep|].
    apply Forall_map. eapply Forall_impl; [|exact IH]. intros [k v] Hv.
    rewrite !forallb_app, json_string_plain. simpl in Hv. now rewrite Hv.
Qed.

(** X17. Whatever characters the records and the snapshot hold, the
    structured report on disk is plain ASCII: every character of it is
    printable ASCII or a line break, provided floats print so. *)
Theorem json_report_is_plain_ascii :
  forall (issues errors flags anomalies : list dict) (snap : snapshot)
         (json_output md_output : str) (w : World),
    (forall q, forallb plain_ascii (float_repr w q) = true) ->
    json_output <> md_output ->
    write_fails w json_output = false ->
    write_fails w md_output = false ->
    exists json_text,
      file_content
        (snd (generate_support_report issues errors flags anomalies snap
                json_output md_output w))
        json_output
      = Some json_text
      /\ forallb plain_ascii json_text = true.
Proof.
  intros issues errors flags anomalies snap json_output md_output w
         Hrepr Hpaths Hj Hm.
  destruct (generate_support_report_files issues errors flags anomalies snap
              json_output md_output w Hj Hm) as [sections Hf].
  eexists. split.
  - unfold file_content. rewrite Hf. cbn -[lit json_encode report].
    rewrite (str_eqb_neq md_output json_output) by congruence.
    now rewrite str_eqb_refl.
  - now apply json_encode_plain.
Qed.

Lemma json_report_of_a_latin1_line :
  let issues := [user_issue (lit "2024-05-01T10:00:00")
                   (lit "error: caf" ++ [chr 233; chr 9] ++ lit "closed")] in
  ((forall q, forallb plain_ascii (float_repr host_with_fixed_repr q) = true)
   /\ lit "support_report.json" <> lit "support_report.md"
   /\ write_fails host_with_fixed_repr (lit "support_report.json") = false
   /\ write_fails host_with_fixed_repr (lit "support_report.md") = false)
  /\ exists json_text,
      file_content
        (snd (generate_support_report issues [] [] [] sample_snapshot
                (lit "support_report.json") (lit "support_report.md")
                host_with_fixed_repr))
        (lit "support_report.json")
      = Some json_text
      /\ forallb plain_ascii json_text = true.
Proof.
  intros issues.
  assert (Hrepr : forall q, forallb plain_ascii (float_repr host_with_fixed_repr q) = true)
    by (intros q; reflexivity).
  assert (Hpaths : lit "support_report.json" <> lit "support_report.md")
    by (vm_compute; discriminate).
  split; [repeat split; solve [exact Hrepr|exact Hpaths|reflexivity]|].
  exact (json_report_is_plain_ascii issues [] [] [] sample_snapshot
           (lit "support_report.json") (lit "support_report.md")
           host_with_fixed_repr Hrepr Hpaths eq_refl eq_refl).
Defined.
